(** * Magazine subscription service

    A shallow embedding of the route handlers of [research_assignment/main.py],
    the request schemas of [research_assignment/schemas.py] and the tables of
    [src/research_assignment/models.py].

    Python [int] is [Z], [str] is [string], [bool] is [bool]; a table is the
    list of its rows in insertion order; a route handler is a function from
    the database session to an outcome and the session it leaves behind. *)

From Stdlib Require Import ZArith List String Bool Lia.
Import ListNotations.

Local Open Scope string_scope.
Local Open Scope list_scope.
Local Open Scope Z_scope.

(** ** models.py: the four tables

    Every column is modelled by the value it holds: the handlers never store
    NULL; an [Integer] column holds a signed 64-bit integer; the [Float]
    columns [price] and [discount] hold doubles, which here are always the
    doubles nearest to the integers of [PlanCreate], so they are kept as the
    integer value of that double. *)

Module User.
Record t : Type := mk
  { id : Z; username : string; email : string; hashed_password : string }.
End User.

Module Magazine.
Record t : Type := mk { id : Z; title : string; description : string }.
End Magazine.

Module Plan.
Record t : Type := mk
  { id : Z; magazine_id : Z; name : string; price : Z; discount : Z }.
End Plan.

Module Subscription.
Record t : Type := mk { id : Z; user_id : Z; plan_id : Z; active : bool }.
End Subscription.

(** ** schemas.py: the request bodies

    A field with a default is read from the body by [parse_obj], whose
    optional argument is [None] when the body omits the field. *)

Module UserCreate.
Record t : Type := mk { username : string; email : string; password : string }.
End UserCreate.

Module UserLogin.
Record t : Type := mk { username : string; password : string }.
End UserLogin.

Module PasswordReset.
Record t : Type := mk { username : string; new_password : string }.
End PasswordReset.

Module SubscriptionCreate.
Record t : Type := mk { user_id : Z; plan_id : Z; active : bool }.

(* active: bool = True *)
Definition parse_obj (user_id plan_id : Z) (active : option bool) : t :=
  mk user_id plan_id (match active with Some b => b | None => true end).
End SubscriptionCreate.

Module PlanCreate.
Record t : Type := mk
  { magazine_id : Z; name : string; price : Z; discount : Z }.

(* discount: int = 0 *)
Definition parse_obj (magazine_id : Z) (name : string) (price : Z)
  (discount : option Z) : t :=
  mk magazine_id name price (match discount with Some d => d | None => 0 end).
End PlanCreate.

Module MagazineCreate.
Record t : Type := mk { title : string; description : string }.
End MagazineCreate.

Module SubscriptionUpdate.
(* plan_id: int = None; active: bool = None *)
Record t : Type := mk { plan_id : option Z; active : option bool }.
End SubscriptionUpdate.

(** ** The database session *)

Record Session : Type := mkSession
  { users : list User.t;
    magazines : list Magazine.t;
    plans : list Plan.t;
    subscriptions : list Subscription.t }.

(* Base.metadata.create_all on a new database: four empty tables. *)
Definition create_all : Session := mkSession [] [] [] [].

(* db.query(T).filter(p).first() *)
Definition first {A : Type} (p : A -> bool) (table : list A) : option A :=
  find p table.

(* db.query(T).filter(p).all() *)
Definition all {A : Type} (p : A -> bool) (table : list A) : list A :=
  filter p table.

(** Modelled from the spec: database.py, which chooses the storage engine, is
    not among the sources.  Following the spec, primary keys are "standard
    auto-incrementing integer primary keys" (the next key is one more than the
    largest key of the table, 1 for an empty table), the unique indexes of
    [User.username] and [User.email] are enforced by the storage layer, and the
    foreign-key columns are "checked, not enforced at the storage layer". *)
Definition next_id (keys : list Z) : Z := 1 + fold_right Z.max 0 keys.

(* models.py declares the keys and the references as [Integer] columns: the
   storage engine keeps them, and binds a query parameter compared with them,
   as signed 64-bit integers. *)
Definition storable (n : Z) : bool := (- 2 ^ 63 <=? n) && (n <? 2 ^ 63).

(* models.py declares [price] and [discount] as [Float] columns.  The double
   such a column keeps for a 64-bit integer: the integer itself up to 53 bits,
   otherwise the nearest multiple of the power of two that leaves 53
   significant bits, ties going to the even one. *)
Definition float_column (n : Z) : Z :=
  let a := Z.abs n in
  if a <? 2 ^ 53 then n
  else
    let e := Z.log2 a - 52 in
    let q := a / 2 ^ e in
    let r := a mod 2 ^ e in
    let half := 2 ^ (e - 1) in
    let q' :=
      if r <? half then q
      else if half <? r then q + 1
      else if Z.even q then q else q + 1 in
    Z.sgn n * (q' * 2 ^ e).

(** ** Outcomes of a request *)

Inductive exception : Type :=
| IntegrityError   (* sqlalchemy.exc.IntegrityError: a unique index refused the row *)
| AttributeError   (* attribute access on None *)
| OverflowError.   (* a Python int too large to bind as a 64-bit parameter *)

Inductive outcome (A : Type) : Type :=
| Return (a : A)
| HTTPException (status_code : Z) (detail : string)
| Uncaught (e : exception).

Arguments Return {A} a.
Arguments HTTPException {A} status_code detail.
Arguments Uncaught {A} e.

Definition HTTP_400_BAD_REQUEST : Z := 400.
Definition HTTP_401_UNAUTHORIZED : Z := 401.
Definition HTTP_403_FORBIDDEN : Z := 403.
Definition HTTP_404_NOT_FOUND : Z := 404.

(* A JSON object with string values, as the handlers build them. *)
Definition dict : Type := list (string * string).

(** A route handler reads the session, may raise, and may commit once.  A
    request that raises has committed nothing, so it leaves the session as it
    found it. *)
Definition route (A : Type) : Type := Session -> outcome A * Session.

Definition ret {A : Type} (a : A) : route A := fun db => (Return a, db).

Definition raise {A : Type} (status_code : Z) (detail : string) : route A :=
  fun db => (HTTPException status_code detail, db).

Definition throw {A : Type} (e : exception) : route A :=
  fun db => (Uncaught e, db).

Definition bind {A B : Type} (m : route A) (k : A -> route B) : route B :=
  fun db =>
    match m db with
    | (Return a, db') => k a db'
    | (HTTPException c d, db') => (HTTPException c d, db')
    | (Uncaught e, db') => (Uncaught e, db')
    end.

Definition query {A : Type} (q : Session -> A) : route A :=
  fun db => (Return (q db), db).

(* db.query(T).filter(T.column == n).first() for an integer n of the request.
   The engine binds n as a 64-bit parameter and compares it with the column:
   an n outside the 64-bit range, which no row of a table of the engine has,
   raises OverflowError.  (A table of the model may list any integer; the
   lookup answers with the row that has n when there is one.) *)
Definition first_by_key {A : Type} (column : A -> Z) (n : Z)
  (table : Session -> list A) : route (option A) :=
  fun db =>
    match first (fun row => column row =? n) (table db) with
    | Some row => (Return (Some row), db)
    | None =>
        if storable n then (Return None, db) else (Uncaught OverflowError, db)
    end.

(* db.query(T).filter(T.column == n).all() for an integer n of the request,
   bound as in [first_by_key]. *)
Definition all_by_key {A : Type} (column : A -> Z) (n : Z)
  (table : Session -> list A) : route (list A) :=
  fun db =>
    match all (fun row => column row =? n) (table db) with
    | [] => if storable n then (Return [], db) else (Uncaught OverflowError, db)
    | row :: rows => (Return (row :: rows), db)
    end.

Declare Scope route_scope.
Delimit Scope route_scope with route.
Notation "x <- m ;; k" := (bind m (fun x => k))
  (at level 100, m at next level, right associativity) : route_scope.
Notation "m ;; k" := (bind m (fun _ => k))
  (at level 100, right associativity) : route_scope.
Local Open Scope route_scope.

(** ** Writes: db.add / attribute assignment / db.delete, then db.commit and
    db.refresh *)

(* db.add(User(username=..., email=..., hashed_password=...)); db.commit();
   db.refresh(new_user) *)
Definition add_user (username email hashed_password : string) : route User.t :=
  fun db =>
    if existsb (fun u => String.eqb (User.username u) username) (users db)
       || existsb (fun u => String.eqb (User.email u) email) (users db)
    then (Uncaught IntegrityError, db)
    else
      let new_user :=
        User.mk (next_id (map User.id (users db))) username email hashed_password in
      (Return new_user,
       mkSession (users db ++ [new_user]) (magazines db) (plans db) (subscriptions db)).

(* db_user.hashed_password = ...; db.commit(): UPDATE users ... WHERE id = pk *)
Definition update_user (row : User.t) : route unit :=
  fun db =>
    (Return tt,
     mkSession
       (map (fun u => if User.id u =? User.id row then row else u) (users db))
       (magazines db) (plans db) (subscriptions db)).

(* db.add of a Subscription built from subscription.dict; db.commit();
   db.refresh(...).  The INSERT binds user_id and plan_id as 64-bit
   parameters. *)
Definition add_subscription (s : SubscriptionCreate.t) : route Subscription.t :=
  fun db =>
    if storable (SubscriptionCreate.user_id s)
       && storable (SubscriptionCreate.plan_id s)
    then
      let db_subscription :=
        Subscription.mk (next_id (map Subscription.id (subscriptions db)))
          (SubscriptionCreate.user_id s) (SubscriptionCreate.plan_id s)
          (SubscriptionCreate.active s) in
      (Return db_subscription,
       mkSession (users db) (magazines db) (plans db)
         (subscriptions db ++ [db_subscription]))
    else (Uncaught OverflowError, db).

(* db.add of a Plan built from plan.dict; db.commit(); db.refresh(db_plan).
   The INSERT binds magazine_id, price and discount as 64-bit parameters, and
   the Float columns keep price and discount as doubles. *)
Definition add_plan (p : PlanCreate.t) : route Plan.t :=
  fun db =>
    if storable (PlanCreate.magazine_id p)
       && (storable (PlanCreate.price p) && storable (PlanCreate.discount p))
    then
      let db_plan :=
        Plan.mk (next_id (map Plan.id (plans db)))
          (PlanCreate.magazine_id p) (PlanCreate.name p)
          (float_column (PlanCreate.price p))
          (float_column (PlanCreate.discount p)) in
      (Return db_plan,
       mkSession (users db) (magazines db) (plans db ++ [db_plan]) (subscriptions db))
    else (Uncaught OverflowError, db).

(* db.add of a Magazine built from magazine.dict; db.commit(); db.refresh(db_magazine) *)
Definition add_magazine (m : MagazineCreate.t) : route Magazine.t :=
  fun db =>
    let db_magazine :=
      Magazine.mk (next_id (map Magazine.id (magazines db)))
        (MagazineCreate.title m) (MagazineCreate.description m) in
    (Return db_magazine,
     mkSession (users db) (magazines db ++ [db_magazine]) (plans db) (subscriptions db)).

(* attribute assignments on db_subscription; db.commit(); db.refresh(...):
   UPDATE subscriptions SET the changed columns WHERE id = pk.  The key and a
   changed plan_id are bound as 64-bit parameters. *)
Definition update_subscription_row (stored row : Subscription.t)
  : route Subscription.t :=
  fun db =>
    if storable (Subscription.id stored)
       && ((Subscription.plan_id row =? Subscription.plan_id stored)
           || storable (Subscription.plan_id row))
    then
      (Return row,
       mkSession (users db) (magazines db) (plans db)
         (map (fun s => if Subscription.id s =? Subscription.id row then row else s)
            (subscriptions db)))
    else (Uncaught OverflowError, db).

(* db.delete(db_subscription); db.commit(): DELETE ... WHERE id = pk, the key
   bound as a 64-bit parameter. *)
Definition delete_subscription_row (row : Subscription.t) : route unit :=
  fun db =>
    if storable (Subscription.id row)
    then
      (Return tt,
       mkSession (users db) (magazines db) (plans db)
         (filter (fun s => negb (Subscription.id s =? Subscription.id row))
            (subscriptions db)))
    else (Uncaught OverflowError, db).

(** ** Sample data

    Stand-ins for the credential helpers and a small database, used to run the
    handlers on concrete requests. *)

Definition sample_hash (password : string) : string := "$2b$" ++ password.

Definition sample_verify (password hashed : string) : bool :=
  String.eqb hashed ("$2b$" ++ password).

Definition sample_token (data : dict) : string :=
  match data with
  | (_, sub) :: _ => "token." ++ sub
  | [] => "token."
  end.

Definition alice : User.t :=
  User.mk 1 "alice" "alice@example.com" (sample_hash "wonderland").

Definition bob : User.t :=
  User.mk 2 "bob" "bob@example.com" (sample_hash "builder").

Definition sample_db : Session :=
  mkSession [alice; bob]
    [Magazine.mk 1 "Tech Monthly" "A magazine dedicated to the latest in tech."]
    [Plan.mk 1 1 "Monthly Subscription" 10 0]
    [Subscription.mk 1 1 1 true; Subscription.mk 2 2 1 true].

(** ** main.py: the route handlers *)

Section Handlers.

(** The credential helpers of auth.py, which is not among the sources, are
    taken as parameters.  [get_password_hash] stands for the salted hash with
    its salt already drawn. *)
Variable get_password_hash : string -> string.
Variable verify_password : string -> string -> bool.
Variable create_access_token : dict -> string.

Definition read_root : route dict :=
  ret [("message", "Welcome to the Magazine Subscription Service")].

Definition list_magazines : route (list Magazine.t) :=
  query (fun db => all (fun _ => true) (magazines db)).

Definition get_users : route (list User.t) :=
  users <- query (fun db => all (fun _ => true) (users db)) ;;
  ret users.

Definition register (user : UserCreate.t) : route dict :=
  db_user <- query (fun db =>
    first (fun u => String.eqb (User.username u) (UserCreate.username user))
      (users db)) ;;
  match db_user with
  | Some _ => raise HTTP_400_BAD_REQUEST "Username already registered"
  | None =>
      let hashed_password := get_password_hash (UserCreate.password user) in
      new_user <- add_user (UserCreate.username user) (UserCreate.email user)
                    hashed_password ;;
      ret [("username", User.username new_user); ("email", User.email new_user)]
  end.

Definition login (user : UserLogin.t) : route dict :=
  db_user <- query (fun db =>
    first (fun u => String.eqb (User.username u) (UserLogin.username user))
      (users db)) ;;
  match db_user with
  | None => raise HTTP_401_UNAUTHORIZED "Incorrect username or password"
  | Some db_user =>
      if negb (verify_password (UserLogin.password user) (User.hashed_password db_user))
      then raise HTTP_401_UNAUTHORIZED "Incorrect username or password"
      else
        let access_token := create_access_token [("sub", User.username db_user)] in
        ret [("access_token", access_token); ("token_type", "bearer")]
  end.

Definition reset_password (reset : PasswordReset.t) : route dict :=
  db_user <- query (fun db =>
    first (fun u => String.eqb (User.username u) (PasswordReset.username reset))
      (users db)) ;;
  match db_user with
  | None => raise HTTP_404_NOT_FOUND "User not found"
  | Some db_user =>
      update_user
        (User.mk (User.id db_user) (User.username db_user) (User.email db_user)
           (get_password_hash (PasswordReset.new_password reset))) ;;
      ret [("msg", "Password reset successful")]
  end.

Definition create_subscription (subscription : SubscriptionCreate.t)
  : route Subscription.t :=
  (* Verify the user exists *)
  db_user <- first_by_key User.id (SubscriptionCreate.user_id subscription) users ;;
  match db_user with
  | None => raise HTTP_404_NOT_FOUND "User not found"
  | Some _ =>
      (* Verify the plan exists *)
      db_plan <- first_by_key Plan.id (SubscriptionCreate.plan_id subscription)
                   plans ;;
      match db_plan with
      | None => raise HTTP_404_NOT_FOUND "Plan not found"
      | Some _ =>
          (* Create the subscription *)
          db_subscription <- add_subscription subscription ;;
          ret db_subscription
      end
  end.

Definition create_plan (plan : PlanCreate.t) : route Plan.t :=
  (* Verify the magazine exists *)
  db_magazine <- first_by_key Magazine.id (PlanCreate.magazine_id plan) magazines ;;
  match db_magazine with
  | None => raise HTTP_404_NOT_FOUND "Magazine not found"
  | Some _ =>
      (* Create the plan *)
      db_plan <- add_plan plan ;;
      ret db_plan
  end.

Definition create_magazine (magazine : MagazineCreate.t) : route Magazine.t :=
  (* Check if a magazine with the same title already exists *)
  db_magazine <- query (fun db =>
    first (fun m => String.eqb (Magazine.title m) (MagazineCreate.title magazine))
      (magazines db)) ;;
  match db_magazine with
  | Some _ =>
      raise HTTP_400_BAD_REQUEST "Magazine with this title already exists"
  | None =>
      (* Create the magazine *)
      db_magazine <- add_magazine magazine ;;
      ret db_magazine
  end.

Definition get_user_subscriptions (user_id : Z) : route (list Subscription.t) :=
  subscriptions <- all_by_key Subscription.user_id user_id subscriptions ;;
  match subscriptions with
  | [] => raise HTTP_404_NOT_FOUND "No subscriptions found for this user"
  | _ :: _ => ret subscriptions
  end.

Definition update_subscription (subscription_id : Z)
  (subscription : SubscriptionUpdate.t) : route Subscription.t :=
  db_subscription <- first_by_key Subscription.id subscription_id subscriptions ;;
  match db_subscription with
  | None => raise HTTP_404_NOT_FOUND "Subscription not found"
  | Some stored =>
      let db_subscription :=
        match SubscriptionUpdate.plan_id subscription with
        | Some plan_id =>
            Subscription.mk (Subscription.id stored)
              (Subscription.user_id stored) plan_id
              (Subscription.active stored)
        | None => stored
        end in
      let db_subscription :=
        match SubscriptionUpdate.active subscription with
        | Some active =>
            Subscription.mk (Subscription.id db_subscription)
              (Subscription.user_id db_subscription)
              (Subscription.plan_id db_subscription) active
        | None => db_subscription
        end in
      update_subscription_row stored db_subscription
  end.

(* Placeholder of the source: the current user is the user whose id is 1. *)
Definition get_current_user : route (option User.t) :=
  user <- query (fun db => first (fun u => User.id u =? 1) (users db)) ;;
  ret user.

(* The dependency [get_current_user] is resolved before the body runs;
   [current_user.id] on None raises AttributeError. *)
Definition delete_subscription (subscription_id : Z) : route dict :=
  current_user <- get_current_user ;;
  db_subscription <- first_by_key Subscription.id subscription_id subscriptions ;;
  match db_subscription with
  | None => raise HTTP_404_NOT_FOUND "Subscription not found"
  | Some db_subscription =>
      (* Check if the subscription belongs to the current user *)
      match current_user with
      | None => throw AttributeError
      | Some current_user =>
          if negb (Subscription.user_id db_subscription =? User.id current_user)
          then raise HTTP_403_FORBIDDEN
                 "You do not have permission to delete this subscription"
          else
            delete_subscription_row db_subscription ;;
            ret [("msg", "Subscription deleted successfully")]
      end
  end.

(** ** The service as a transition system *)

Inductive request : Type :=
| ReadRoot
| ListMagazines
| GetUsers
| Register (user : UserCreate.t)
| Login (user : UserLogin.t)
| ResetPassword (reset : PasswordReset.t)
| CreateSubscription (subscription : SubscriptionCreate.t)
| CreatePlan (plan : PlanCreate.t)
| CreateMagazine (magazine : MagazineCreate.t)
| GetUserSubscriptions (user_id : Z)
| UpdateSubscription (subscription_id : Z) (subscription : SubscriptionUpdate.t)
| DeleteSubscription (subscription_id : Z).

(* The session a request leaves behind. *)
Definition serve (r : request) (db : Session) : Session :=
  match r with
  | ReadRoot => snd (read_root db)
  | ListMagazines => snd (list_magazines db)
  | GetUsers => snd (get_users db)
  | Register user => snd (register user db)
  | Login user => snd (login user db)
  | ResetPassword reset => snd (reset_password reset db)
  | CreateSubscription subscription => snd (create_subscription subscription db)
  | CreatePlan plan => snd (create_plan plan db)
  | CreateMagazine magazine => snd (create_magazine magazine db)
  | GetUserSubscriptions user_id => snd (get_user_subscriptions user_id db)
  | UpdateSubscription subscription_id subscription =>
      snd (update_subscription subscription_id subscription db)
  | DeleteSubscription subscription_id => snd (delete_subscription subscription_id db)
  end.

(* The sessions the service can be in: the new database, and whatever a
   request makes of a reachable session. *)
Inductive reachable : Session -> Prop :=
| reachable_create_all : reachable create_all
| reachable_serve (r : request) (db : Session) :
    reachable db -> reachable (serve r db).

(* The session after a sequence of requests. *)
Definition serve_all (rs : list request) (db : Session) : Session :=
  fold_left (fun db r => serve r db) rs db.

(* The requests that build [sample_db] from the new database. *)
Definition sample_requests : list request :=
  [ Register (UserCreate.mk "alice" "alice@example.com" "wonderland");
    Register (UserCreate.mk "bob" "bob@example.com" "builder");
    CreateMagazine
      (MagazineCreate.mk "Tech Monthly" "A magazine dedicated to the latest in tech.");
    CreatePlan (PlanCreate.parse_obj 1 "Monthly Subscription" 10 None);
    CreateSubscription (SubscriptionCreate.parse_obj 1 1 None);
    CreateSubscription (SubscriptionCreate.parse_obj 2 1 (Some true)) ].

(* Every subscription references a plan that exists. *)
Definition subscription_plans_exist (db : Session) : bool :=
  forallb
    (fun s => existsb (fun p => Plan.id p =? Subscription.plan_id s) (plans db))
    (subscriptions db).

(* Every subscription is owned by a user that exists. *)
Definition subscription_users_exist (db : Session) : Prop :=
  forall s, In s (subscriptions db) ->
    exists u, In u (users db) /\ User.id u = Subscription.user_id s.

(* Once there are users, the user with id 1 is among them. *)
Definition first_user_exists (db : Session) : Prop :=
  users db = [] \/ exists u, In u (users db) /\ User.id u = 1.

Definition consistent (db : Session) : Prop :=
  subscription_users_exist db /\ first_user_exists db.


(* What update_subscription makes of the stored row. *)
Definition apply_update (subscription : SubscriptionUpdate.t)
  (stored : Subscription.t) : Subscription.t :=
  Subscription.mk (Subscription.id stored) (Subscription.user_id stored)
    (match SubscriptionUpdate.plan_id subscription with
     | Some plan_id => plan_id
     | None => Subscription.plan_id stored
     end)
    (match SubscriptionUpdate.active subscription with
     | Some active => active
     | None => Subscription.active stored
     end).

(* The UPDATE of update_subscription binds its parameters: the key is a
   64-bit value, and the request leaves plan_id alone, or repeats the stored
   one, or gives a 64-bit value. *)
Definition update_binds (subscription : SubscriptionUpdate.t)
  (stored : Subscription.t) : bool :=
  storable (Subscription.id stored)
  && match SubscriptionUpdate.plan_id subscription with
     | Some plan_id => (plan_id =? Subscription.plan_id stored) || storable plan_id
     | None => true
     end.


(* How a request ends, whatever it returns. *)
Inductive ending : Type :=
| Succeeded
| Refused (status_code : Z)
| Crashed (e : exception).

Definition ending_of {A : Type} (o : outcome A) : ending :=
  match o with
  | Return _ => Succeeded
  | HTTPException status_code _ => Refused status_code
  | Uncaught e => Crashed e
  end.

Definition respond (r : request) (db : Session) : ending :=
  match r with
  | ReadRoot => ending_of (fst (read_root db))
  | ListMagazines => ending_of (fst (list_magazines db))
  | GetUsers => ending_of (fst (get_users db))
  | Register user => ending_of (fst (register user db))
  | Login user => ending_of (fst (login user db))
  | ResetPassword reset => ending_of (fst (reset_password reset db))
  | CreateSubscription subscription =>
      ending_of (fst (create_subscription subscription db))
  | CreatePlan plan => ending_of (fst (create_plan plan db))
  | CreateMagazine magazine => ending_of (fst (create_magazine magazine db))
  | GetUserSubscriptions user_id => ending_of (fst (get_user_subscriptions user_id db))
  | UpdateSubscription subscription_id subscription =>
      ending_of (fst (update_subscription subscription_id subscription db))
  | DeleteSubscription subscription_id =>
      ending_of (fst (delete_subscription subscription_id db))
  end.

(* Primary keys are unique in every table. *)
Definition keys_unique (db : Session) : Prop :=
  NoDup (map User.id (users db)) /\
  NoDup (map Magazine.id (magazines db)) /\
  NoDup (map Plan.id (plans db)) /\
  NoDup (map Subscription.id (subscriptions db)).

(* No two users share a username or an email; no two magazines share a title. *)
Definition names_unique (db : Session) : Prop :=
  NoDup (map User.username (users db)) /\
  NoDup (map User.email (users db)) /\
  NoDup (map Magazine.title (magazines db)).

(* Every plan belongs to a magazine that exists. *)
Definition plan_magazines_exist (db : Session) : Prop :=
  forall p, In p (plans db) ->
    exists m, In m (magazines db) /\ Magazine.id m = Plan.magazine_id p.

Definition sound (db : Session) : Prop :=
  keys_unique db /\ names_unique db /\ plan_magazines_exist db.

(** ** Facts about queries and writes *)

Ltac run_route :=
  unfold bind, query, ret, raise, throw, first_by_key, all_by_key,
    add_user, update_user, add_subscription, add_plan, add_magazine,
    update_subscription_row, delete_subscription_row; simpl.

Lemma first_Some :
  forall (A : Type) (p : A -> bool) (table : list A) (x : A),
    first p table = Some x -> In x table /\ p x = true.
Proof. intros A p table x H. apply find_some. exact H. Qed.

Lemma first_None :
  forall (A : Type) (p : A -> bool) (table : list A),
    first p table = None -> forall x, In x table -> p x = false.
Proof. intros A p table H x Hin. apply (find_none p table H x Hin). Qed.

(* On a table whose column holds 64-bit values only, as every table of the
   engine does, the lookups bind first and then search. *)
Lemma first_by_key_bound :
  forall (A : Type) (column : A -> Z) (n : Z) (table : Session -> list A)
    (db : Session),
    (forall row, In row (table db) -> storable (column row) = true) ->
    first_by_key column n table db =
      (if storable n
       then Return (first (fun row => column row =? n) (table db))
       else Uncaught OverflowError, db).
Proof.
  intros A column n table db Hcolumn. unfold first_by_key.
  destruct (first (fun row => column row =? n) (table db)) as [row|] eqn:E.
  - apply first_Some in E. destruct E as [Hin Hn]. apply Z.eqb_eq in Hn.
    rewrite <- Hn, (Hcolumn row Hin). reflexivity.
  - destruct (storable n); reflexivity.
Qed.

Lemma all_by_key_bound :
  forall (A : Type) (column : A -> Z) (n : Z) (table : Session -> list A)
    (db : Session),
    (forall row, In row (table db) -> storable (column row) = true) ->
    all_by_key column n table db =
      (if storable n
       then Return (all (fun row => column row =? n) (table db))
       else Uncaught OverflowError, db).
Proof.
  intros A column n table db Hcolumn. unfold all_by_key.
  destruct (all (fun row => column row =? n) (table db)) as [|row rows] eqn:E.
  - destruct (storable n); reflexivity.
  - assert (Hin : In row (all (fun row => column row =? n) (table db))).
    { rewrite E. left. reflexivity. }
    unfold all in Hin. apply filter_In in Hin. destruct Hin as [Hin Hn].
    apply Z.eqb_eq in Hn. rewrite <- Hn, (Hcolumn row Hin). reflexivity.
Qed.

Lemma first_by_id :
  forall (subscription_id : Z) (table : list Subscription.t) (stored : Subscription.t),
    first (fun s => Subscription.id s =? subscription_id) table = Some stored ->
    Subscription.id stored = subscription_id.
Proof.
  intros subscription_id table stored H.
  apply first_Some in H. destruct H as [_ H]. apply Z.eqb_eq. exact H.
Qed.

(* After UPDATE ... WHERE id = pk the lookup by that key yields the new row. *)
Lemma first_update_row :
  forall (table : list Subscription.t) (row stored : Subscription.t),
    first (fun s => Subscription.id s =? Subscription.id row) table = Some stored ->
    first (fun s => Subscription.id s =? Subscription.id row)
      (map (fun s => if Subscription.id s =? Subscription.id row then row else s) table)
    = Some row.
Proof.
  induction table as [|a table IH]; intros row stored H; simpl in *.
  - discriminate H.
  - destruct (Subscription.id a =? Subscription.id row) eqn:E; simpl.
    + rewrite Z.eqb_refl. reflexivity.
    + rewrite E. apply (IH row stored H).
Qed.

(* UPDATE ... WHERE id = pk leaves the rows with another key alone. *)
Lemma In_update_row_other :
  forall (table : list Subscription.t) (row s : Subscription.t),
    Subscription.id s <> Subscription.id row ->
    In s (map (fun s => if Subscription.id s =? Subscription.id row then row else s) table)
    <-> In s table.
Proof.
  intros table row s Hne. rewrite in_map_iff. split.
  - intros [x [Hx Hin]].
    destruct (Subscription.id x =? Subscription.id row) eqn:E.
    + subst s. contradiction Hne. reflexivity.
    + subst x. exact Hin.
  - intros Hin. exists s. split; [|exact Hin].
    apply Z.eqb_neq in Hne. rewrite Hne. reflexivity.
Qed.

(* After DELETE ... WHERE id = pk the lookup by that key finds nothing. *)
Lemma first_delete_row :
  forall (table : list Subscription.t) (subscription_id : Z),
    first (fun s => Subscription.id s =? subscription_id)
      (filter (fun s => negb (Subscription.id s =? subscription_id)) table) = None.
Proof.
  induction table as [|a table IH]; intros subscription_id; simpl.
  - reflexivity.
  - destruct (Subscription.id a =? subscription_id) eqn:E; simpl.
    + apply IH.
    + rewrite E. apply IH.
Qed.

(* DELETE ... WHERE id = pk leaves the rows with another key alone. *)
Lemma In_delete_row_other :
  forall (table : list Subscription.t) (subscription_id : Z) (s : Subscription.t),
    Subscription.id s <> subscription_id ->
    In s (filter (fun s => negb (Subscription.id s =? subscription_id)) table)
    <-> In s table.
Proof.
  intros table subscription_id s Hne. rewrite filter_In.
  apply Z.eqb_neq in Hne. rewrite Hne. simpl. tauto.
Qed.

Lemma forallb_false_In :
  forall (A : Type) (p : A -> bool) (l : list A) (x : A),
    In x l -> p x = false -> forallb p l = false.
Proof.
  intros A p l x Hin Hp. destruct (forallb p l) eqn:E; [|reflexivity].
  rewrite forallb_forall in E. rewrite (E x Hin) in Hp. discriminate Hp.
Qed.

Lemma existsb_first_None :
  forall (A : Type) (p : A -> bool) (l : list A),
    first p l = None -> existsb p l = false.
Proof.
  intros A p l H. destruct (existsb p l) eqn:E; [|reflexivity].
  apply existsb_exists in E. destruct E as [x [Hin Hp]].
  rewrite (first_None A p l H x Hin) in Hp. discriminate Hp.
Qed.

Lemma update_subscription_found :
  forall (db : Session) (subscription_id : Z)
    (subscription : SubscriptionUpdate.t) (stored : Subscription.t),
    first (fun s => Subscription.id s =? subscription_id) (subscriptions db)
      = Some stored ->
    update_binds subscription stored = true ->
    update_subscription subscription_id subscription db =
      (Return (apply_update subscription stored),
       mkSession (users db) (magazines db) (plans db)
         (map (fun s => if Subscription.id s =? subscription_id
                        then apply_update subscription stored else s)
            (subscriptions db))).
Proof.
  intros db subscription_id subscription stored H Hbinds.
  pose proof (first_by_id _ _ _ H) as Hid.
  unfold update_subscription. run_route. rewrite H. simpl.
  unfold update_binds in Hbinds.
  destruct subscription as [[p|] [a|]], stored as [i u q b];
    simpl in *; subst i;
    destruct (storable subscription_id); simpl in *; try discriminate Hbinds;
    try (rewrite Z.eqb_refl; reflexivity);
    destruct (p =? q), (storable p); simpl in *;
    try discriminate Hbinds; reflexivity.
Qed.

Lemma update_subscription_overflow :
  forall (db : Session) (subscription_id : Z)
    (subscription : SubscriptionUpdate.t) (stored : Subscription.t),
    first (fun s => Subscription.id s =? subscription_id) (subscriptions db)
      = Some stored ->
    update_binds subscription stored = false ->
    update_subscription subscription_id subscription db =
      (Uncaught OverflowError, db).
Proof.
  intros db subscription_id subscription stored H Hbinds.
  unfold update_subscription. run_route. rewrite H. simpl.
  unfold update_binds in Hbinds.
  destruct subscription as [[p|] [a|]], stored as [i u q b];
    simpl in *;
    destruct (storable i); simpl in *; try reflexivity;
    try (rewrite Z.eqb_refl in Hbinds); try discriminate Hbinds;
    destruct (p =? q), (storable p); simpl in *;
    try discriminate Hbinds; reflexivity.
Qed.

Lemma update_subscription_not_found :
  forall (db : Session) (subscription_id : Z) (subscription : SubscriptionUpdate.t),
    first (fun s => Subscription.id s =? subscription_id) (subscriptions db) = None ->
    update_subscription subscription_id subscription db =
      (if storable subscription_id
       then HTTPException HTTP_404_NOT_FOUND "Subscription not found"
       else Uncaught OverflowError, db).
Proof.
  intros db subscription_id subscription H.
  unfold update_subscription. run_route. rewrite H.
  destruct (storable subscription_id); reflexivity.
Qed.

(** ** update_subscription *)

(** C2, as the code has it: for an existing subscription whose id is a signed
    64-bit integer and a request whose plan_id is null or omitted, or repeats
    the stored one, or is a signed 64-bit integer, update_subscription changes
    only the fields that are
    present and non-null in the request: a null or omitted plan_id keeps the
    stored plan_id, a null or omitted active keeps the stored flag, id and
    user_id never change, the updated row is the one stored under the key, and
    no other row or table changes.  In particular, updating a subscription
    with plan_id = 1 and active = true with only active = false gives
    plan_id = 1 and active = false.  A request whose id or new plan_id is
    outside the 64-bit range ends in an uncaught OverflowError and changes
    nothing. *)
Theorem update_subscription_partial :
  forall (db : Session) (subscription_id : Z)
    (subscription : SubscriptionUpdate.t) (stored : Subscription.t),
    first (fun s => Subscription.id s =? subscription_id) (subscriptions db)
      = Some stored ->
    (update_binds subscription stored = true ->
     exists (updated : Subscription.t) (db' : Session),
       update_subscription subscription_id subscription db = (Return updated, db') /\
       first (fun s => Subscription.id s =? subscription_id) (subscriptions db')
         = Some updated /\
       Subscription.id updated = Subscription.id stored /\
       Subscription.user_id updated = Subscription.user_id stored /\
       (SubscriptionUpdate.plan_id subscription = None ->
        Subscription.plan_id updated = Subscription.plan_id stored) /\
       (forall plan_id, SubscriptionUpdate.plan_id subscription = Some plan_id ->
        Subscription.plan_id updated = plan_id) /\
       (SubscriptionUpdate.active subscription = None ->
        Subscription.active updated = Subscription.active stored) /\
       (forall active, SubscriptionUpdate.active subscription = Some active ->
        Subscription.active updated = active) /\
       (forall s, Subscription.id s <> subscription_id ->
          (In s (subscriptions db') <-> In s (subscriptions db))) /\
       users db' = users db /\ magazines db' = magazines db /\ plans db' = plans db /\
       (Subscription.plan_id stored = 1 -> Subscription.active stored = true ->
        subscription = SubscriptionUpdate.mk None (Some false) ->
        Subscription.plan_id updated = 1 /\ Subscription.active updated = false)) /\
    (update_binds subscription stored = false ->
     update_subscription subscription_id subscription db =
       (Uncaught OverflowError, db)).
Proof.
  intros db subscription_id subscription stored H.
  split; [|apply (update_subscription_overflow db subscription_id subscription stored H)].
  intros Hbinds.
  pose proof (first_by_id _ _ _ H) as Hid.
  exists (apply_update subscription stored). eexists.
  split; [apply (update_subscription_found db subscription_id subscription stored H
                   Hbinds)|].
  simpl. split.
  { subst subscription_id.
    apply (first_update_row (subscriptions db) (apply_update subscription stored) stored H). }
  repeat split; try reflexivity.
  - intros E. rewrite E. reflexivity.
  - intros plan_id E. rewrite E. reflexivity.
  - intros E. rewrite E. reflexivity.
  - intros active E. rewrite E. reflexivity.
  - subst subscription_id. intros Hin.
    apply (In_update_row_other (subscriptions db) (apply_update subscription stored) s);
      assumption.
  - subst subscription_id. intros Hin.
    apply (In_update_row_other (subscriptions db) (apply_update subscription stored) s);
      assumption.
  - subst subscription. simpl. assumption.
  - subst subscription. reflexivity.
Qed.

(** C9, as the code has it: update_subscription never looks the new plan_id
    up: for an existing subscription and any plan_id of the request, both ids
    being signed 64-bit integers, the update succeeds and stores that plan_id,
    and when no plan has that id the stored subscriptions no longer all
    reference an existing plan. *)
Theorem update_subscription_plan_unchecked :
  forall (db : Session) (subscription_id plan_id : Z) (active : option bool)
    (stored : Subscription.t),
    first (fun s => Subscription.id s =? subscription_id) (subscriptions db)
      = Some stored ->
    storable subscription_id = true ->
    storable plan_id = true ->
    exists (updated : Subscription.t) (db' : Session),
      update_subscription subscription_id
        (SubscriptionUpdate.mk (Some plan_id) active) db = (Return updated, db') /\
      Subscription.plan_id updated = plan_id /\
      first (fun s => Subscription.id s =? subscription_id) (subscriptions db')
        = Some updated /\
      (first (fun p => Plan.id p =? plan_id) (plans db) = None ->
       subscription_plans_exist db' = false).
Proof.
  intros db subscription_id plan_id active stored H Hkey Hstorable.
  pose proof (first_by_id _ _ _ H) as Hid.
  set (subscription := SubscriptionUpdate.mk (Some plan_id) active).
  assert (Hbinds : update_binds subscription stored = true).
  { unfold update_binds. simpl. rewrite Hid, Hkey, Hstorable. simpl.
    apply orb_true_r. }
  exists (apply_update subscription stored). eexists.
  split; [apply (update_subscription_found db subscription_id subscription stored H
                   Hbinds)|].
  assert (Hfound :
    first (fun s => Subscription.id s =? subscription_id)
      (map (fun s => if Subscription.id s =? subscription_id
                     then apply_update subscription stored else s)
         (subscriptions db)) = Some (apply_update subscription stored)).
  { subst subscription_id.
    apply (first_update_row (subscriptions db) (apply_update subscription stored) stored H). }
  simpl. split; [reflexivity|]. split; [exact Hfound|].
  intros Hplan. unfold subscription_plans_exist. simpl.
  apply first_Some in Hfound. destruct Hfound as [Hin _].
  apply (forallb_false_In _ _ _ _ Hin). simpl.
  apply existsb_first_None. exact Hplan.
Qed.

(** ** The sessions the service can reach *)

Lemma consistent_register :
  forall (user : UserCreate.t) (db : Session),
    consistent db -> consistent (snd (register user db)).
Proof.
  intros user db [Hown Hfirst]. unfold register. run_route.
  destruct (first _ (users db)); simpl; [split; assumption|].
  destruct (existsb _ (users db) || existsb _ (users db)); simpl;
    [split; assumption|].
  split.
  - intros s Hin. simpl in Hin. destruct (Hown s Hin) as [u [Hu Hid]].
    exists u. simpl. split; [apply in_or_app; left; exact Hu|exact Hid].
  - right. simpl. destruct Hfirst as [Hnil|[u [Hu Hid]]].
    + rewrite Hnil. simpl. eexists. split; [left; reflexivity|reflexivity].
    + exists u. split; [apply in_or_app; left; exact Hu|exact Hid].
Qed.

Lemma consistent_reset_password :
  forall (reset : PasswordReset.t) (db : Session),
    consistent db -> consistent (snd (reset_password reset db)).
Proof.
  intros reset db [Hown Hfirst]. unfold reset_password. run_route.
  destruct (first _ (users db)) as [db_user|]; simpl; [|split; assumption].
  split.
  - intros s Hin. simpl in Hin. destruct (Hown s Hin) as [u [Hu Hid]].
    eexists. simpl. split; [apply in_map; exact Hu|].
    cbv beta. destruct (User.id u =? User.id db_user) eqn:E; simpl.
    + apply Z.eqb_eq in E. rewrite <- E. exact Hid.
    + exact Hid.
  - destruct Hfirst as [Hnil|[u [Hu Hid]]].
    + left. simpl. rewrite Hnil. reflexivity.
    + right. eexists. simpl. split; [apply in_map; exact Hu|].
      cbv beta. destruct (User.id u =? User.id db_user) eqn:E; simpl.
      * apply Z.eqb_eq in E. rewrite <- E. exact Hid.
      * exact Hid.
Qed.

Lemma consistent_create_subscription :
  forall (subscription : SubscriptionCreate.t) (db : Session),
    consistent db -> consistent (snd (create_subscription subscription db)).
Proof.
  intros subscription db [Hown Hfirst]. unfold create_subscription. run_route.
  destruct (first _ (users db)) as [db_user|] eqn:Huser; simpl;
    [|destruct (storable _); simpl; split; assumption].
  destruct (first _ (plans db)); simpl;
    [|destruct (storable _); simpl; split; assumption].
  destruct (storable _ && storable _); simpl; [|split; assumption].
  split; [|exact Hfirst].
  intros s Hin. simpl in Hin. apply in_app_or in Hin. destruct Hin as [Hin|Hin].
  - apply (Hown s Hin).
  - destruct Hin as [Hs|[]]. subst s. simpl.
    apply first_Some in Huser. destruct Huser as [Hu Hid].
    exists db_user. split; [exact Hu|]. apply Z.eqb_eq. exact Hid.
Qed.

Lemma consistent_update_subscription :
  forall (subscription_id : Z) (subscription : SubscriptionUpdate.t) (db : Session),
    consistent db ->
    consistent (snd (update_subscription subscription_id subscription db)).
Proof.
  intros subscription_id subscription db [Hown Hfirst].
  destruct (first (fun s => Subscription.id s =? subscription_id) (subscriptions db))
    as [stored|] eqn:Hsub.
  - destruct (update_binds subscription stored) eqn:Hbinds.
    + rewrite (update_subscription_found db subscription_id subscription stored Hsub
                 Hbinds).
      split; [|exact Hfirst].
      intros s Hin. simpl in Hin. apply in_map_iff in Hin.
      destruct Hin as [x [Hx Hin]]. simpl.
      destruct (Subscription.id x =? subscription_id).
      * subst s. simpl. apply first_Some in Hsub. apply (Hown stored). apply Hsub.
      * subst x. apply (Hown s Hin).
    + rewrite (update_subscription_overflow db subscription_id subscription stored Hsub
                 Hbinds).
      split; assumption.
  - rewrite (update_subscription_not_found db subscription_id subscription Hsub).
    split; assumption.
Qed.

Lemma consistent_delete_subscription :
  forall (subscription_id : Z) (db : Session),
    consistent db -> consistent (snd (delete_subscription subscription_id db)).
Proof.
  intros subscription_id db [Hown Hfirst].
  unfold delete_subscription, get_current_user. run_route.
  destruct (first _ (subscriptions db)) as [stored|]; simpl;
    [|destruct (storable _); simpl; split; assumption].
  destruct (first _ (users db)) as [current_user|]; simpl; [|split; assumption].
  destruct (negb _); simpl; [split; assumption|].
  destruct (storable _); simpl; [|split; assumption].
  split; [|exact Hfirst].
  intros s Hin. simpl in Hin. apply filter_In in Hin. apply (Hown s). apply Hin.
Qed.

Lemma consistent_serve :
  forall (r : request) (db : Session), consistent db -> consistent (serve r db).
Proof.
  intros r db H. destruct r; simpl.
  - exact H.
  - exact H.
  - exact H.
  - apply consistent_register. exact H.
  - unfold login. run_route. destruct (first _ (users db)); simpl; [|exact H].
    destruct (negb _); exact H.
  - apply consistent_reset_password. exact H.
  - apply consistent_create_subscription. exact H.
  - unfold create_plan. run_route.
    destruct (first _ (magazines db)); simpl.
    + destruct (storable _ && (storable _ && storable _)); simpl; exact H.
    + destruct (storable _); exact H.
  - unfold create_magazine. run_route.
    destruct (first _ (magazines db)); simpl; exact H.
  - unfold get_user_subscriptions. run_route.
    destruct (all _ (subscriptions db)); [destruct (storable _)|]; exact H.
  - apply consistent_update_subscription. exact H.
  - apply consistent_delete_subscription. exact H.
Qed.

Lemma reachable_consistent :
  forall (db : Session), reachable db -> consistent db.
Proof.
  intros db H. induction H as [|r db H IH].
  - split; [intros s []|left; reflexivity].
  - apply consistent_serve. exact IH.
Qed.

Lemma first_user_found :
  forall (table : list User.t) (u : User.t),
    In u table -> User.id u = 1 ->
    exists current_user,
      first (fun u => User.id u =? 1) table = Some current_user /\
      User.id current_user = 1.
Proof.
  intros table u Hin Hid.
  destruct (first (fun u => User.id u =? 1) table) as [current_user|] eqn:E.
  - exists current_user. split; [reflexivity|].
    apply first_Some in E. apply Z.eqb_eq. apply E.
  - apply (first_None _ _ _ E) in Hin. simpl in Hin.
    apply Z.eqb_neq in Hin. contradiction.
Qed.

(* In a reachable session the owner lookup of delete_subscription resolves
   whenever there is a subscription to delete. *)
Lemma reachable_current_user :
  forall (db : Session) (s : Subscription.t),
    reachable db -> In s (subscriptions db) ->
    exists current_user,
      first (fun u => User.id u =? 1) (users db) = Some current_user /\
      User.id current_user = 1.
Proof.
  intros db s Hreach Hin.
  destruct (reachable_consistent db Hreach) as [Hown Hfirst].
  destruct (Hown s Hin) as [owner [Howner _]].
  destruct Hfirst as [Hnil|[u [Hu Hid]]].
  - rewrite Hnil in Howner. destruct Howner.
  - apply (first_user_found (users db) u Hu Hid).
Qed.

(** ** delete_subscription *)

Lemma delete_subscription_missing :
  forall (db : Session) (subscription_id : Z),
    first (fun s => Subscription.id s =? subscription_id) (subscriptions db) = None ->
    delete_subscription subscription_id db =
      (if storable subscription_id
       then HTTPException HTTP_404_NOT_FOUND "Subscription not found"
       else Uncaught OverflowError, db).
Proof.
  intros db subscription_id H.
  unfold delete_subscription, get_current_user. run_route. rewrite H.
  destruct (storable subscription_id); reflexivity.
Qed.

Lemma delete_subscription_forbidden :
  forall (db : Session) (subscription_id : Z) (stored : Subscription.t)
    (current_user : User.t),
    first (fun s => Subscription.id s =? subscription_id) (subscriptions db)
      = Some stored ->
    first (fun u => User.id u =? 1) (users db) = Some current_user ->
    Subscription.user_id stored <> User.id current_user ->
    delete_subscription subscription_id db =
      (HTTPException HTTP_403_FORBIDDEN
         "You do not have permission to delete this subscription", db).
Proof.
  intros db subscription_id stored current_user Hsub Huser Hne.
  unfold delete_subscription, get_current_user. run_route.
  rewrite Huser, Hsub. simpl. apply Z.eqb_neq in Hne. rewrite Hne. reflexivity.
Qed.

Lemma delete_subscription_owned :
  forall (db : Session) (subscription_id : Z) (stored : Subscription.t)
    (current_user : User.t),
    first (fun s => Subscription.id s =? subscription_id) (subscriptions db)
      = Some stored ->
    first (fun u => User.id u =? 1) (users db) = Some current_user ->
    Subscription.user_id stored = User.id current_user ->
    delete_subscription subscription_id db =
      (if storable subscription_id
       then Return [("msg", "Subscription deleted successfully")]
       else Uncaught OverflowError,
       if storable subscription_id
       then mkSession (users db) (magazines db) (plans db)
              (filter (fun s => negb (Subscription.id s =? subscription_id))
                 (subscriptions db))
       else db).
Proof.
  intros db subscription_id stored current_user Hsub Huser Heq.
  pose proof (first_by_id _ _ _ Hsub) as Hid.
  unfold delete_subscription, get_current_user. run_route.
  rewrite Huser, Hsub. simpl. apply Z.eqb_eq in Heq. rewrite Heq. simpl.
  rewrite Hid. destruct (storable subscription_id); reflexivity.
Qed.

(** C1, as the code has it: in every session the service can reach, for a
    subscription_id that is a signed 64-bit integer, delete_subscription fails
    with 404 when no subscription has the id; when a subscription has it, the
    current user resolves, and the call fails with 403 and leaves the whole
    store (so the record) as it was when the record's user_id differs from the
    current user's id, and otherwise returns the success message and deletes
    the record, leaving every other row and table alone.  For a
    subscription_id outside the 64-bit range that no subscription has, the
    call ends in an uncaught OverflowError and changes nothing. *)
Theorem delete_subscription_outcomes :
  forall (db : Session),
    reachable db ->
    forall (subscription_id : Z),
      (first (fun s => Subscription.id s =? subscription_id) (subscriptions db) = None ->
       storable subscription_id = true ->
       delete_subscription subscription_id db =
         (HTTPException HTTP_404_NOT_FOUND "Subscription not found", db)) /\
      (first (fun s => Subscription.id s =? subscription_id) (subscriptions db) = None ->
       storable subscription_id = false ->
       delete_subscription subscription_id db = (Uncaught OverflowError, db)) /\
      (forall stored : Subscription.t,
         first (fun s => Subscription.id s =? subscription_id) (subscriptions db)
           = Some stored ->
         exists current_user : User.t,
           get_current_user db = (Return (Some current_user), db) /\
           (Subscription.user_id stored <> User.id current_user ->
            delete_subscription subscription_id db =
              (HTTPException HTTP_403_FORBIDDEN
                 "You do not have permission to delete this subscription", db)) /\
           (Subscription.user_id stored = User.id current_user ->
            storable subscription_id = true ->
            exists db' : Session,
              delete_subscription subscription_id db =
                (Return [("msg", "Subscription deleted successfully")], db') /\
              first (fun s => Subscription.id s =? subscription_id) (subscriptions db')
                = None /\
              (forall s, Subscription.id s <> subscription_id ->
                 (In s (subscriptions db') <-> In s (subscriptions db))) /\
              users db' = users db /\ magazines db' = magazines db /\
              plans db' = plans db)).
Proof.
  intros db Hreach subscription_id. split; [|split].
  - intros Hnone Hs. rewrite (delete_subscription_missing db subscription_id Hnone).
    rewrite Hs. reflexivity.
  - intros Hnone Hs. rewrite (delete_subscription_missing db subscription_id Hnone).
    rewrite Hs. reflexivity.
  - intros stored Hsub.
    assert (Hin : In stored (subscriptions db)).
    { apply first_Some in Hsub. apply Hsub. }
    destruct (reachable_current_user db stored Hreach Hin) as [current_user [Huser _]].
    exists current_user. split; [|split].
    + unfold get_current_user. run_route. rewrite Huser. reflexivity.
    + apply (delete_subscription_forbidden db subscription_id stored current_user Hsub Huser).
    + intros Heq Hkey. eexists. split.
      * rewrite (delete_subscription_owned db subscription_id stored current_user
                   Hsub Huser Heq).
        rewrite Hkey. reflexivity.
      * simpl. split; [apply first_delete_row|].
        split; [|repeat split].
        intros s Hne. apply In_delete_row_other. exact Hne.
Qed.

(** C10: get_current_user reads nothing of the request and resolves to the
    user whose id is 1: in every session holding such a user,
    delete_subscription returns its success message only for a subscription
    whose user_id is 1, and answers 403 for every subscription owned by any
    other user. *)
Theorem delete_subscription_only_user_1 :
  forall (db : Session) (subscription_id : Z) (u : User.t),
    In u (users db) -> User.id u = 1 ->
    (exists current_user : User.t,
       get_current_user db = (Return (Some current_user), db) /\
       User.id current_user = 1) /\
    (forall (response : dict) (db' : Session),
       delete_subscription subscription_id db = (Return response, db') ->
       exists stored : Subscription.t,
         first (fun s => Subscription.id s =? subscription_id) (subscriptions db)
           = Some stored /\
         Subscription.user_id stored = 1) /\
    (forall stored : Subscription.t,
       first (fun s => Subscription.id s =? subscription_id) (subscriptions db)
         = Some stored ->
       Subscription.user_id stored <> 1 ->
       delete_subscription subscription_id db =
         (HTTPException HTTP_403_FORBIDDEN
            "You do not have permission to delete this subscription", db)).
Proof.
  intros db subscription_id u Hin Hid.
  destruct (first_user_found (users db) u Hin Hid) as [current_user [Huser Hcid]].
  split; [|split].
  - exists current_user. split; [|exact Hcid].
    unfold get_current_user. run_route. rewrite Huser. reflexivity.
  - intros response db' Hdel.
    destruct (first (fun s => Subscription.id s =? subscription_id) (subscriptions db))
      as [stored|] eqn:Hsub.
    + exists stored. split; [reflexivity|].
      destruct (Z.eq_dec (Subscription.user_id stored) (User.id current_user)) as [Heq|Hne].
      * rewrite Heq. exact Hcid.
      * rewrite (delete_subscription_forbidden db subscription_id stored current_user
                   Hsub Huser Hne) in Hdel.
        discriminate Hdel.
    + rewrite (delete_subscription_missing db subscription_id Hsub) in Hdel.
      destruct (storable subscription_id); discriminate Hdel.
  - intros stored Hsub Hne.
    apply (delete_subscription_forbidden db subscription_id stored current_user Hsub Huser).
    rewrite Hcid. exact Hne.
Qed.

(** ** login *)


(** ** Primary keys and Float columns *)

Lemma next_id_fresh :
  forall (keys : list Z) (k : Z), In k keys -> k < next_id keys.
Proof.
  unfold next_id. induction keys as [|a keys IH]; intros k Hin;
    cbn [fold_right In] in *.
  - destruct Hin.
  - destruct Hin as [Ha|Hin].
    + subst a. lia.
    + specialize (IH k Hin). lia.
Qed.


(** ** create_subscription *)

(** C4, as the code has it: for a user_id and a plan_id that are signed
    64-bit integers, create_subscription answers 404 and inserts nothing when
    no user has the user_id, or the user exists and no plan has the plan_id;
    when both exist it appends one subscription, with a new key and the fields
    of the request, and returns it; a request that omits active creates a
    record with active = true.  When the id that is looked up and not found is
    outside the 64-bit range, the request ends in an uncaught OverflowError
    and inserts nothing. *)
Theorem create_subscription_outcomes :
  forall (db : Session) (subscription : SubscriptionCreate.t),
    (first (fun u => User.id u =? SubscriptionCreate.user_id subscription) (users db)
       = None ->
     create_subscription subscription db =
       (if storable (SubscriptionCreate.user_id subscription)
        then HTTPException HTTP_404_NOT_FOUND "User not found"
        else Uncaught OverflowError, db)) /\
    (forall db_user : User.t,
       first (fun u => User.id u =? SubscriptionCreate.user_id subscription) (users db)
         = Some db_user ->
       first (fun p => Plan.id p =? SubscriptionCreate.plan_id subscription) (plans db)
         = None ->
       create_subscription subscription db =
         (if storable (SubscriptionCreate.plan_id subscription)
          then HTTPException HTTP_404_NOT_FOUND "Plan not found"
          else Uncaught OverflowError, db)) /\
    (forall (db_user : User.t) (db_plan : Plan.t),
       first (fun u => User.id u =? SubscriptionCreate.user_id subscription) (users db)
         = Some db_user ->
       first (fun p => Plan.id p =? SubscriptionCreate.plan_id subscription) (plans db)
         = Some db_plan ->
       storable (SubscriptionCreate.user_id subscription) = true ->
       storable (SubscriptionCreate.plan_id subscription) = true ->
       exists created : Subscription.t,
         create_subscription subscription db =
           (Return created,
            mkSession (users db) (magazines db) (plans db)
              (subscriptions db ++ [created])) /\
         Subscription.user_id created = SubscriptionCreate.user_id subscription /\
         Subscription.plan_id created = SubscriptionCreate.plan_id subscription /\
         Subscription.active created = SubscriptionCreate.active subscription /\
         (forall s, In s (subscriptions db) -> Subscription.id s < Subscription.id created) /\
         (forall user_id plan_id,
            subscription = SubscriptionCreate.parse_obj user_id plan_id None ->
            Subscription.active created = true)).
Proof.
  intros db subscription. split; [|split].
  - intros Huser. unfold create_subscription. run_route. rewrite Huser.
    destruct (storable _); reflexivity.
  - intros db_user Huser Hplan. unfold create_subscription. run_route.
    rewrite Huser. simpl. rewrite Hplan. destruct (storable _); reflexivity.
  - intros db_user db_plan Huser Hplan Hu Hp.
    eexists. split.
    + unfold create_subscription. run_route. rewrite Huser. simpl.
      rewrite Hplan. simpl. rewrite Hu, Hp. simpl. reflexivity.
    + simpl. repeat split.
      * intros s Hin. apply next_id_fresh. apply in_map. exact Hin.
      * intros user_id plan_id E. subst subscription. reflexivity.
Qed.

(** ** get_user_subscriptions *)

(** C6, as the code has it: get_user_subscriptions answers 404 when no
    subscription has the user_id and the user_id is a signed 64-bit integer,
    which in a reachable session includes every such user_id that no user has;
    it ends in an uncaught OverflowError when the user_id is outside that
    range; otherwise it returns all the subscriptions with that user_id: those
    and no others, in table order. *)
Theorem get_user_subscriptions_outcomes :
  forall (db : Session) (user_id : Z),
    (all (fun s => Subscription.user_id s =? user_id) (subscriptions db) = [] ->
     get_user_subscriptions user_id db =
       (if storable user_id
        then HTTPException HTTP_404_NOT_FOUND "No subscriptions found for this user"
        else Uncaught OverflowError, db)) /\
    (all (fun s => Subscription.user_id s =? user_id) (subscriptions db) <> [] ->
     get_user_subscriptions user_id db =
       (Return (all (fun s => Subscription.user_id s =? user_id) (subscriptions db)),
        db)) /\
    (forall s,
       In s (all (fun s => Subscription.user_id s =? user_id) (subscriptions db)) <->
       In s (subscriptions db) /\ Subscription.user_id s = user_id) /\
    (reachable db ->
     first (fun u => User.id u =? user_id) (users db) = None ->
     storable user_id = true ->
     get_user_subscriptions user_id db =
       (HTTPException HTTP_404_NOT_FOUND "No subscriptions found for this user", db)).
Proof.
  intros db user_id.
  assert (Hin : forall s,
    In s (all (fun s => Subscription.user_id s =? user_id) (subscriptions db)) <->
    In s (subscriptions db) /\ Subscription.user_id s = user_id).
  { intros s. unfold all. rewrite filter_In, Z.eqb_eq. reflexivity. }
  assert (Hempty :
    all (fun s => Subscription.user_id s =? user_id) (subscriptions db) = [] ->
    get_user_subscriptions user_id db =
      (if storable user_id
       then HTTPException HTTP_404_NOT_FOUND "No subscriptions found for this user"
       else Uncaught OverflowError, db)).
  { intros H. unfold get_user_subscriptions. run_route. rewrite H.
    destruct (storable user_id); reflexivity. }
  split; [exact Hempty|]. split; [|split; [exact Hin|]].
  - intros H. unfold get_user_subscriptions. run_route.
    destruct (all _ (subscriptions db)); [contradiction H; reflexivity|reflexivity].
  - intros Hreach Huser Hs. rewrite Hempty; [rewrite Hs; reflexivity|].
    destruct (all (fun s => Subscription.user_id s =? user_id) (subscriptions db))
      as [|s rest] eqn:E; [reflexivity|].
    assert (Hs' : In s (s :: rest)) by (left; reflexivity).
    apply Hin in Hs'. destruct Hs' as [Hs' Hid].
    destruct (reachable_consistent db Hreach) as [Hown _].
    destruct (Hown s Hs') as [u [Hu Huid]].
    apply (first_None _ _ _ Huser) in Hu. simpl in Hu.
    apply Z.eqb_neq in Hu. contradiction Hu. rewrite Huid. exact Hid.
Qed.

(** ** create_plan and create_magazine *)



(** ** register *)




Lemma reachable_serve_all :
  forall (rs : list request) (db : Session),
    reachable db -> reachable (serve_all rs db).
Proof.
  induction rs as [|r rs IH]; intros db H; simpl.
  - exact H.
  - apply IH. apply reachable_serve. exact H.
Qed.

(** ** Further facts about queries *)

Lemma first_none_of_all_false :
  forall (A : Type) (p : A -> bool) (l : list A),
    (forall x, In x l -> p x = false) -> first p l = None.
Proof.
  intros A p l. induction l as [|a l IH]; intros H; simpl.
  - reflexivity.
  - rewrite (H a (or_introl eq_refl)). apply IH.
    intros x Hx. apply H. right. exact Hx.
Qed.

Lemma first_app_new :
  forall (A : Type) (p : A -> bool) (l : list A) (x : A),
    first p l = None -> p x = true -> first p (l ++ [x]) = Some x.
Proof.
  intros A p l x. induction l as [|a l IH]; intros Hnone Hx; simpl in *.
  - rewrite Hx. reflexivity.
  - destruct (p a); [discriminate Hnone|]. apply IH; assumption.
Qed.

Lemma all_true :
  forall (A : Type) (l : list A), all (fun _ => true) l = l.
Proof.
  intros A l. unfold all. induction l as [|a l IH]; simpl; [reflexivity|].
  rewrite IH. reflexivity.
Qed.

(* What a successful registration did. *)
Lemma register_returned :
  forall (db db' : Session) (user : UserCreate.t) (response : dict),
    register user db = (Return response, db') ->
    first (fun u => String.eqb (User.username u) (UserCreate.username user)) (users db)
      = None /\
    existsb (fun u => String.eqb (User.email u) (UserCreate.email user)) (users db)
      = false /\
    response = [("username", UserCreate.username user);
                ("email", UserCreate.email user)] /\
    db' = mkSession
            (users db ++
               [User.mk (next_id (map User.id (users db))) (UserCreate.username user)
                  (UserCreate.email user)
                  (get_password_hash (UserCreate.password user))])
            (magazines db) (plans db) (subscriptions db).
Proof.
  intros db db' user response. unfold register. run_route.
  destruct (first _ (users db)) eqn:Hname; simpl; [intros H; discriminate H|].
  destruct (existsb (fun u => String.eqb (User.username u) (UserCreate.username user))
              (users db)); simpl; [intros H; discriminate H|].
  destruct (existsb (fun u => String.eqb (User.email u) (UserCreate.email user))
              (users db)); simpl; [intros H; discriminate H|].
  intros H. injection H as Hr Hdb. subst response db'. repeat split.
Qed.

(* What a successful reset did. *)
Lemma reset_password_found :
  forall (db : Session) (reset : PasswordReset.t) (db_user : User.t),
    first (fun u => String.eqb (User.username u) (PasswordReset.username reset))
      (users db) = Some db_user ->
    reset_password reset db =
      (Return [("msg", "Password reset successful")],
       mkSession
         (map (fun u =>
                 if User.id u =? User.id db_user
                 then User.mk (User.id db_user) (User.username db_user)
                        (User.email db_user)
                        (get_password_hash (PasswordReset.new_password reset))
                 else u) (users db))
         (magazines db) (plans db) (subscriptions db)).
Proof.
  intros db reset db_user H. unfold reset_password. run_route. rewrite H.
  reflexivity.
Qed.

(* After UPDATE users ... WHERE id = pk, the lookup that found the old row by
   its username finds the new row. *)
Lemma first_username_updated :
  forall (table : list User.t) (username : string) (db_user row : User.t),
    first (fun u => String.eqb (User.username u) username) table = Some db_user ->
    User.username row = username ->
    first (fun u => String.eqb (User.username u) username)
      (map (fun u => if User.id u =? User.id db_user then row else u) table)
    = Some row.
Proof.
  intros table username db_user row Hfound Hrow.
  induction table as [|a table IH]; simpl in *; [discriminate Hfound|].
  destruct (String.eqb (User.username a) username) eqn:Ea.
  - injection Hfound as Ha. subst a. rewrite Z.eqb_refl.
    rewrite Hrow, String.eqb_refl. reflexivity.
  - destruct (User.id a =? User.id db_user).
    + rewrite Hrow, String.eqb_refl. reflexivity.
    + rewrite Ea. apply IH. exact Hfound.
Qed.

(** ** reset_password *)


(** X2: after a reset of an existing user's password, a login with that
    username and the new password is accepted, provided the new password
    verifies against its own hash. *)
Theorem reset_password_then_login :
  forall (db : Session) (reset : PasswordReset.t) (db_user : User.t),
    first (fun u => String.eqb (User.username u) (PasswordReset.username reset))
      (users db) = Some db_user ->
    verify_password (PasswordReset.new_password reset)
      (get_password_hash (PasswordReset.new_password reset)) = true ->
    login (UserLogin.mk (PasswordReset.username reset)
             (PasswordReset.new_password reset))
      (snd (reset_password reset db))
    = (Return [("access_token", create_access_token [("sub", User.username db_user)]);
               ("token_type", "bearer")],
       snd (reset_password reset db)).
Proof.
  intros db reset db_user H Hverify.
  rewrite (reset_password_found db reset db_user H). simpl.
  assert (Hname : User.username db_user = PasswordReset.username reset).
  { apply first_Some in H. destruct H as [_ H]. apply String.eqb_eq. exact H. }
  unfold login. run_route.
  rewrite (first_username_updated (users db) _ db_user
             (User.mk (User.id db_user) (User.username db_user) (User.email db_user)
                (get_password_hash (PasswordReset.new_password reset))) H Hname).
  simpl. rewrite Hverify. reflexivity.
Qed.

(** ** register, then login *)

(** X3: after a successful registration, a login with the same username and
    password is accepted and its token is issued for that username, provided
    the password verifies against its own hash. *)
Theorem register_then_login :
  forall (db db' : Session) (user : UserCreate.t) (response : dict),
    register user db = (Return response, db') ->
    verify_password (UserCreate.password user)
      (get_password_hash (UserCreate.password user)) = true ->
    login (UserLogin.mk (UserCreate.username user) (UserCreate.password user)) db'
    = (Return [("access_token",
                create_access_token [("sub", UserCreate.username user)]);
               ("token_type", "bearer")], db').
Proof.
  intros db db' user response Hreg Hverify.
  destruct (register_returned db db' user response Hreg) as (Hname & _ & _ & Hdb).
  subst db'. unfold login. run_route.
  rewrite (first_app_new _ _ (users db)
             (User.mk (next_id (map User.id (users db))) (UserCreate.username user)
                (UserCreate.email user) (get_password_hash (UserCreate.password user)))
             Hname).
  - simpl. rewrite Hverify. reflexivity.
  - simpl. apply String.eqb_refl.
Qed.

(** ** What no request does *)

Ltac run_handlers :=
  unfold read_root, list_magazines, get_users, register, login, reset_password,
    create_subscription, create_plan, create_magazine, get_user_subscriptions,
    delete_subscription, get_current_user;
  run_route.

(* Case analysis on the lookups and tests a handler makes. *)
Ltac split_cases :=
  repeat match goal with
  | |- context [match first ?p ?l with _ => _ end] => destruct (first p l); simpl
  | |- context [match all ?p ?l with _ => _ end] => destruct (all p l); simpl
  | |- context [if ?c then _ else _] => destruct c; simpl
  end.

(* The three ways update_subscription goes. *)
Ltac update_cases db subscription_id subscription :=
  let stored := fresh "stored" in
  let Hsub := fresh "Hsub" in
  let Hbinds := fresh "Hbinds" in
  destruct (first (fun s => Subscription.id s =? subscription_id) (subscriptions db))
    as [stored|] eqn:Hsub;
  [ destruct (update_binds subscription stored) eqn:Hbinds;
    [ rewrite (update_subscription_found db subscription_id subscription stored
                 Hsub Hbinds)
    | rewrite (update_subscription_overflow db subscription_id subscription stored
                 Hsub Hbinds) ]
  | rewrite (update_subscription_not_found db subscription_id subscription Hsub) ];
  simpl.

Ltac grow_nothing :=
  repeat split; try (exists []; rewrite app_nil_r; reflexivity).

(** X4: a request that does not succeed, whether it is refused with an HTTP
    error or ends in an uncaught exception, leaves the whole store as it was. *)
Theorem failed_request_changes_nothing :
  forall (r : request) (db : Session),
    respond r db <> Succeeded -> serve r db = db.
Proof.
  intros r db. destruct r; simpl.
  1-10, 12: run_handlers; split_cases; intros H;
    first [reflexivity | contradiction H; reflexivity].
  update_cases db subscription_id subscription; intros H;
    first [reflexivity | contradiction H; reflexivity].
Qed.

(** X5: the reading endpoints (the root, the magazine list, the user list,
    a user's subscriptions) and login never change the store, whatever they
    answer; the two lists return their whole table. *)
Theorem reads_change_nothing :
  forall (db : Session),
    read_root db =
      (Return [("message", "Welcome to the Magazine Subscription Service")], db) /\
    list_magazines db = (Return (magazines db), db) /\
    get_users db = (Return (users db), db) /\
    (forall user_id : Z, snd (get_user_subscriptions user_id db) = db) /\
    (forall user : UserLogin.t, snd (login user db) = db).
Proof.
  intros db. split; [reflexivity|]. split; [|split; [|split]].
  - unfold list_magazines. run_route. rewrite all_true. reflexivity.
  - unfold get_users. run_route. rewrite all_true. reflexivity.
  - intros user_id. unfold get_user_subscriptions. run_route.
    split_cases; reflexivity.
  - intros user. unfold login. run_route. split_cases; reflexivity.
Qed.

(** X6: no request removes or rewrites a magazine or a plan, and no request
    removes a user or changes a user's key: after any request the magazines and
    the plans are the old ones followed by what was added, and so are the
    users' keys. *)
Theorem catalog_and_users_only_grow :
  forall (r : request) (db : Session),
    (exists added, magazines (serve r db) = magazines db ++ added) /\
    (exists added, plans (serve r db) = plans db ++ added) /\
    (exists added,
       map User.id (users (serve r db)) = map User.id (users db) ++ added).
Proof.
  intros r db. destruct r; simpl.
  - grow_nothing.
  - grow_nothing.
  - grow_nothing.
  - run_handlers.
    destruct (first _ (users db)); simpl; [grow_nothing|].
    destruct (existsb _ (users db) || existsb _ (users db)); simpl;
      [grow_nothing|].
    grow_nothing. eexists. rewrite map_app. reflexivity.
  - run_handlers. split_cases; grow_nothing.
  - run_handlers.
    destruct (first _ (users db)) as [db_user|]; simpl; [|grow_nothing].
    grow_nothing. exists []. rewrite app_nil_r.
    rewrite map_map. apply map_ext. intros u.
    destruct (User.id u =? User.id db_user) eqn:E; simpl; [|reflexivity].
    apply Z.eqb_eq in E. symmetry. exact E.
  - run_handlers. split_cases; grow_nothing.
  - run_handlers.
    destruct (first _ (magazines db)); simpl;
      [|destruct (storable _); simpl; grow_nothing].
    destruct (storable _ && (storable _ && storable _)); simpl; [|grow_nothing].
    grow_nothing. eexists. reflexivity.
  - run_handlers.
    destruct (first _ (magazines db)); simpl; [grow_nothing|].
    grow_nothing. eexists. reflexivity.
  - run_handlers. split_cases; grow_nothing.
  - update_cases db subscription_id subscription; grow_nothing.
  - run_handlers. split_cases; grow_nothing.
Qed.

(** ** update_subscription, again *)

(** X7: update_subscription answers an HTTP error only as the 404 of a
    subscription_id that no subscription has, which it gives exactly when
    that id is a signed 64-bit integer, and then leaves the store unchanged;
    for a subscription that exists its only failure is the uncaught
    OverflowError of an id or a new plan_id outside the 64-bit range. *)
Theorem update_subscription_missing :
  forall (db : Session) (subscription_id : Z) (subscription : SubscriptionUpdate.t),
    (first (fun s => Subscription.id s =? subscription_id) (subscriptions db) = None ->
     update_subscription subscription_id subscription db =
       (if storable subscription_id
        then HTTPException HTTP_404_NOT_FOUND "Subscription not found"
        else Uncaught OverflowError, db)) /\
    (forall (status_code : Z) (detail : string) (db' : Session),
       update_subscription subscription_id subscription db
         = (HTTPException status_code detail, db') ->
       status_code = HTTP_404_NOT_FOUND /\ storable subscription_id = true /\
       first (fun s => Subscription.id s =? subscription_id) (subscriptions db) = None) /\
    (forall (stored : Subscription.t) (o : outcome Subscription.t) (db' : Session),
       first (fun s => Subscription.id s =? subscription_id) (subscriptions db)
         = Some stored ->
       update_subscription subscription_id subscription db = (o, db') ->
       ending_of o <> Succeeded ->
       o = Uncaught OverflowError /\ update_binds subscription stored = false).
Proof.
  intros db subscription_id subscription. split; [|split].
  - apply update_subscription_not_found.
  - intros status_code detail db'.
    update_cases db subscription_id subscription; intros H; try discriminate H.
    destruct (storable subscription_id); [|discriminate H].
    injection H as Hc _ _. repeat split. symmetry. exact Hc.
  - intros stored o db' Hsub Hrun Hfail.
    destruct (update_binds subscription stored) eqn:Hbinds.
    + rewrite (update_subscription_found db subscription_id subscription stored Hsub
                 Hbinds) in Hrun.
      injection Hrun as Ho _. subst o. contradiction Hfail. reflexivity.
    + rewrite (update_subscription_overflow db subscription_id subscription stored
                 Hsub Hbinds) in Hrun.
      injection Hrun as Ho _. subst o. split; reflexivity.
Qed.

Lemma apply_update_twice :
  forall (subscription : SubscriptionUpdate.t) (stored : Subscription.t),
    apply_update subscription (apply_update subscription stored)
    = apply_update subscription stored.
Proof.
  intros [[p|] [a|]] [i u q b]; reflexivity.
Qed.

Lemma update_binds_again :
  forall (subscription : SubscriptionUpdate.t) (stored : Subscription.t),
    update_binds subscription stored = true ->
    update_binds subscription (apply_update subscription stored) = true.
Proof.
  intros [[p|] [a|]] [i u q b]; unfold update_binds; simpl; intros H;
    try exact H;
    apply andb_true_iff in H; destruct H as [Hk _]; rewrite Hk, Z.eqb_refl;
    reflexivity.
Qed.

(** X8: update_subscription is idempotent: sending the same update a second
    time gives the same answer as the first and leaves the store as the first
    left it. *)
Theorem update_subscription_idempotent :
  forall (db : Session) (subscription_id : Z) (subscription : SubscriptionUpdate.t),
    update_subscription subscription_id subscription
      (snd (update_subscription subscription_id subscription db))
    = update_subscription subscription_id subscription db.
Proof.
  intros db subscription_id subscription.
  destruct (first (fun s => Subscription.id s =? subscription_id) (subscriptions db))
    as [stored|] eqn:Hsub.
  - pose proof (first_by_id _ _ _ Hsub) as Hid.
    destruct (update_binds subscription stored) eqn:Hbinds.
    + rewrite (update_subscription_found db subscription_id subscription stored Hsub
                 Hbinds).
      simpl.
      set (db1 := mkSession (users db) (magazines db) (plans db)
                    (map (fun s => if Subscription.id s =? subscription_id
                                   then apply_update subscription stored else s)
                       (subscriptions db))).
      assert (Hfound :
        first (fun s => Subscription.id s =? subscription_id) (subscriptions db1)
        = Some (apply_update subscription stored)).
      { subst subscription_id. simpl.
        apply (first_update_row (subscriptions db) (apply_update subscription stored)
                 stored Hsub). }
      rewrite (update_subscription_found db1 subscription_id subscription _ Hfound
                 (update_binds_again subscription stored Hbinds)).
      subst db1. simpl. rewrite apply_update_twice. f_equal. f_equal.
      rewrite map_map. apply map_ext. intros s.
      destruct (Subscription.id s =? subscription_id) eqn:E.
      * simpl. rewrite Hid, Z.eqb_refl. reflexivity.
      * rewrite E. reflexivity.
    + rewrite (update_subscription_overflow db subscription_id subscription stored
                 Hsub Hbinds).
      simpl.
      apply (update_subscription_overflow db subscription_id subscription stored
               Hsub Hbinds).
  - rewrite (update_subscription_not_found db subscription_id subscription Hsub).
    simpl. apply (update_subscription_not_found db subscription_id subscription Hsub).
Qed.

(** ** Uniqueness and references in the sessions the service can reach *)

Lemma NoDup_snoc :
  forall (A : Type) (l : list A) (x : A),
    NoDup l -> ~ In x l -> NoDup (l ++ [x]).
Proof.
  intros A l x. induction l as [|a l IH]; simpl; intros Hnd Hnin.
  - constructor; [intros []|constructor].
  - inversion Hnd as [|a' l' Ha Hl]; subst. constructor.
    + intros Hin. apply in_app_or in Hin. destruct Hin as [Hin|[Hin|[]]].
      * contradiction.
      * subst x. apply Hnin. left. reflexivity.
    + apply IH; [exact Hl|]. intros Hin. apply Hnin. right. exact Hin.
Qed.

Lemma next_id_not_in :
  forall (keys : list Z), ~ In (next_id keys) keys.
Proof.
  intros keys Hin. apply next_id_fresh in Hin. lia.
Qed.

Lemma NoDup_map_filter :
  forall (A B : Type) (f : A -> B) (p : A -> bool) (l : list A),
    NoDup (map f l) -> NoDup (map f (filter p l)).
Proof.
  intros A B f p l. induction l as [|a l IH]; simpl; intros H; [exact H|].
  inversion H as [|b l' Hb Hl]; subst.
  destruct (p a); simpl; [|apply IH; exact Hl].
  constructor; [|apply IH; exact Hl].
  intros Hin. apply Hb. apply in_map_iff in Hin. destruct Hin as [x [Hx Hin]].
  apply in_map_iff. exists x. split; [exact Hx|].
  apply filter_In in Hin. apply Hin.
Qed.

Lemma NoDup_map_same_key :
  forall (A B : Type) (f : A -> B) (l : list A) (a b : A),
    NoDup (map f l) -> In a l -> In b l -> f a = f b -> a = b.
Proof.
  intros A B f l a b. induction l as [|c l IH]; simpl; intros Hnd Ha Hb Hf.
  - destruct Ha.
  - inversion Hnd as [|c' l' Hc Hl]; subst.
    destruct Ha as [Ha|Ha], Hb as [Hb|Hb].
    + subst. reflexivity.
    + subst c. exfalso. apply Hc. rewrite Hf. apply in_map. exact Hb.
    + subst c. exfalso. apply Hc. rewrite <- Hf. apply in_map. exact Ha.
    + apply IH; assumption.
Qed.

Lemma existsb_false_not_in :
  forall (A : Type) (g : A -> string) (l : list A) (n : string),
    existsb (fun u => String.eqb (g u) n) l = false -> ~ In n (map g l).
Proof.
  intros A g l n H Hin. apply in_map_iff in Hin. destruct Hin as [u [Hu Hin]].
  assert (Ht : existsb (fun u => String.eqb (g u) n) l = true).
  { apply existsb_exists. exists u. split; [exact Hin|].
    rewrite Hu. apply String.eqb_refl. }
  rewrite Ht in H. discriminate H.
Qed.

(* UPDATE ... WHERE id = pk, in a table with unique keys, keeps every column
   on which the new row agrees with the row it replaces. *)
Lemma update_user_keeps_column :
  forall (B : Type) (g : User.t -> B) (l : list User.t) (db_user row : User.t),
    NoDup (map User.id l) -> In db_user l -> g row = g db_user ->
    map g (map (fun u => if User.id u =? User.id db_user then row else u) l)
    = map g l.
Proof.
  intros B g l db_user row Hnd Hin Hg. rewrite map_map. apply map_ext_in.
  intros u Hu. destruct (User.id u =? User.id db_user) eqn:E; [|reflexivity].
  apply Z.eqb_eq in E.
  rewrite (NoDup_map_same_key _ _ User.id l u db_user Hnd Hu Hin E). exact Hg.
Qed.

Lemma update_subscription_keeps_keys :
  forall (l : list Subscription.t) (subscription_id : Z) (row : Subscription.t),
    Subscription.id row = subscription_id ->
    map Subscription.id
      (map (fun s => if Subscription.id s =? subscription_id then row else s) l)
    = map Subscription.id l.
Proof.
  intros l subscription_id row Hrow. rewrite map_map. apply map_ext. intros s.
  destruct (Subscription.id s =? subscription_id) eqn:E; [|reflexivity].
  apply Z.eqb_eq in E. rewrite Hrow, E. reflexivity.
Qed.

Lemma sound_serve :
  forall (r : request) (db : Session), sound db -> sound (serve r db).
Proof.
  intros r db Hs.
  destruct Hs as [[Hku [Hkm [Hkp Hks]]] [[Hnu [Hne Hnt]] Hpm]].
  assert (Hs : sound db) by (repeat split; assumption).
  destruct r; simpl; try exact Hs.
  - (* register *)
    unfold register. run_route.
    destruct (first _ (users db)) eqn:Hname; simpl; [exact Hs|].
    destruct (existsb (fun u => String.eqb (User.username u) (UserCreate.username user))
                (users db)) eqn:En; simpl; [exact Hs|].
    destruct (existsb (fun u => String.eqb (User.email u) (UserCreate.email user))
                (users db)) eqn:Ee; simpl; [exact Hs|].
    repeat split; simpl; try assumption; rewrite map_app; simpl; apply NoDup_snoc;
      try assumption.
    + apply next_id_not_in.
    + apply (existsb_false_not_in _ User.username _ _ En).
    + apply (existsb_false_not_in _ User.email _ _ Ee).
  - (* login *)
    unfold login. run_route. destruct (first _ (users db)); simpl; [|exact Hs].
    destruct (negb _); exact Hs.
  - (* reset_password *)
    unfold reset_password. run_route.
    destruct (first _ (users db)) as [db_user|] eqn:Hname; simpl; [|exact Hs].
    assert (Hin : In db_user (users db)).
    { apply first_Some in Hname. apply Hname. }
    set (row := User.mk (User.id db_user) (User.username db_user)
                  (User.email db_user)
                  (get_password_hash (PasswordReset.new_password reset))).
    repeat split; simpl; try assumption.
    + rewrite (update_user_keeps_column _ User.id (users db) db_user row Hku Hin
                 eq_refl).
      exact Hku.
    + rewrite (update_user_keeps_column _ User.username (users db) db_user row Hku Hin
                 eq_refl).
      exact Hnu.
    + rewrite (update_user_keeps_column _ User.email (users db) db_user row Hku Hin
                 eq_refl).
      exact Hne.
  - (* create_subscription *)
    unfold create_subscription. run_route.
    destruct (first _ (users db)); simpl; [|destruct (storable _); exact Hs].
    destruct (first _ (plans db)); simpl; [|destruct (storable _); exact Hs].
    destruct (storable _ && storable _); simpl; [|exact Hs].
    repeat split; simpl; try assumption.
    rewrite map_app. simpl. apply NoDup_snoc; [exact Hks|apply next_id_not_in].
  - (* create_plan *)
    unfold create_plan. run_route.
    destruct (first _ (magazines db)) as [db_magazine|] eqn:Hmag; simpl;
      [|destruct (storable _); exact Hs].
    destruct (storable _ && (storable _ && storable _)); simpl; [|exact Hs].
    repeat split; simpl; try assumption.
    + rewrite map_app. simpl. apply NoDup_snoc; [exact Hkp|apply next_id_not_in].
    + intros p Hin. apply in_app_or in Hin. destruct Hin as [Hin|[Hin|[]]].
      * apply (Hpm p Hin).
      * subst p. simpl. apply first_Some in Hmag. destruct Hmag as [Hm Hid].
        exists db_magazine. split; [exact Hm|]. apply Z.eqb_eq. exact Hid.
  - (* create_magazine *)
    unfold create_magazine. run_route.
    destruct (first _ (magazines db)) eqn:Htitle; simpl; [exact Hs|].
    repeat split; simpl; try assumption.
    + rewrite map_app. simpl. apply NoDup_snoc; [exact Hkm|apply next_id_not_in].
    + rewrite map_app. simpl. apply NoDup_snoc; [exact Hnt|].
      apply (existsb_false_not_in _ Magazine.title).
      apply existsb_first_None. exact Htitle.
    + intros p Hin. destruct (Hpm p Hin) as [m [Hm Hid]].
      exists m. split; [apply in_or_app; left; exact Hm|exact Hid].
  - (* get_user_subscriptions *)
    unfold get_user_subscriptions. run_route.
    destruct (all _ (subscriptions db)); [destruct (storable _)|]; exact Hs.
  - (* update_subscription *)
    update_cases db subscription_id subscription; try exact Hs.
    repeat split; simpl; try assumption.
    rewrite update_subscription_keeps_keys; [exact Hks|].
    simpl. apply (first_by_id _ _ _ Hsub).
  - (* delete_subscription *)
    unfold delete_subscription, get_current_user. run_route.
    destruct (first _ (subscriptions db)); simpl;
      [|destruct (storable _); exact Hs].
    destruct (first _ (users db)); simpl; [|exact Hs].
    destruct (negb _); simpl; [exact Hs|].
    destruct (storable _); simpl; [|exact Hs].
    repeat split; simpl; try assumption.
    apply NoDup_map_filter. exact Hks.
Qed.

Lemma reachable_sound :
  forall (db : Session), reachable db -> sound db.
Proof.
  intros db H. induction H as [|r db H IH].
  - repeat split; simpl; try constructor. intros p [].
  - apply sound_serve. exact IH.
Qed.

(** X9: in every session the service can reach, primary keys are unique in
    each of the four tables. *)
Theorem reachable_keys_unique :
  forall (db : Session), reachable db -> keys_unique db.
Proof. intros db H. apply (reachable_sound db H). Qed.

(** X10: in every session the service can reach, no two users share a
    username, no two users share an email, and no two magazines share a
    title. *)
Theorem reachable_names_unique :
  forall (db : Session), reachable db -> names_unique db.
Proof. intros db H. apply (reachable_sound db H). Qed.

(** X11: in every session the service can reach, every plan belongs to a
    magazine that exists and every subscription to a user that exists. *)
Theorem reachable_references_exist :
  forall (db : Session),
    reachable db -> plan_magazines_exist db /\ subscription_users_exist db.
Proof.
  intros db H. split.
  - apply (reachable_sound db H).
  - apply (reachable_consistent db H).
Qed.

(** ** Uncaught exceptions *)


(** ** delete_subscription, again *)

Lemma delete_subscription_returned :
  forall (db db' : Session) (subscription_id : Z) (response : dict),
    delete_subscription subscription_id db = (Return response, db') ->
    storable subscription_id = true /\
    exists stored : Subscription.t,
      first (fun s => Subscription.id s =? subscription_id) (subscriptions db)
        = Some stored /\
      db' = mkSession (users db) (magazines db) (plans db)
              (filter (fun s => negb (Subscription.id s =? subscription_id))
                 (subscriptions db)).
Proof.
  intros db db' subscription_id response.
  destruct (first (fun s => Subscription.id s =? subscription_id) (subscriptions db))
    as [stored|] eqn:Hsub.
  - pose proof (first_by_id _ _ _ Hsub) as Hid.
    unfold delete_subscription, get_current_user. run_route. rewrite Hsub. simpl.
    destruct (first _ (users db)); simpl; [|intros H; discriminate H].
    destruct (negb _); simpl; [intros H; discriminate H|].
    rewrite Hid.
    destruct (storable subscription_id); simpl; intros H; [|discriminate H].
    injection H as _ Hdb. split; [reflexivity|].
    exists stored. split; [reflexivity|]. symmetry. exact Hdb.
  - rewrite (delete_subscription_missing db subscription_id Hsub).
    destruct (storable subscription_id); intros H; discriminate H.
Qed.

Lemma filter_all_kept :
  forall (A : Type) (p : A -> bool) (l : list A),
    (forall x, In x l -> p x = true) -> filter p l = l.
Proof.
  intros A p l. induction l as [|a l IH]; simpl; intros H; [reflexivity|].
  rewrite (H a (or_introl eq_refl)). rewrite IH; [reflexivity|].
  intros x Hx. apply H. right. exact Hx.
Qed.

(* DELETE ... WHERE id = pk, in a table with unique keys, takes out the row
   the lookup found and nothing else. *)
Lemma delete_row_splits :
  forall (l : list Subscription.t) (subscription_id : Z) (stored : Subscription.t),
    NoDup (map Subscription.id l) ->
    first (fun s => Subscription.id s =? subscription_id) l = Some stored ->
    exists before after : list Subscription.t,
      l = before ++ stored :: after /\
      filter (fun s => negb (Subscription.id s =? subscription_id)) l
      = before ++ after.
Proof.
  induction l as [|a l IH]; intros subscription_id stored Hnd Hfound; simpl in *.
  - discriminate Hfound.
  - inversion Hnd as [|k ks Ha Hl]; subst.
    destruct (Subscription.id a =? subscription_id) eqn:E; simpl.
    + injection Hfound as Hs. subst a. exists [], l. split; [reflexivity|].
      simpl. apply filter_all_kept. intros x Hx.
      apply negb_true_iff. apply Z.eqb_neq. intros Hk.
      apply Ha. apply Z.eqb_eq in E. rewrite E, <- Hk. apply in_map. exact Hx.
    + destruct (IH subscription_id stored Hl Hfound) as [before [after [Hl1 Hl2]]].
      exists (a :: before), after. simpl. rewrite <- Hl1, Hl2.
      split; reflexivity.
Qed.

(** X13: in every session the service can reach, a successful
    delete_subscription removes exactly one row, the one with the given id,
    and keeps the other rows in their order. *)
Theorem delete_subscription_removes_one_row :
  forall (db db' : Session) (subscription_id : Z) (response : dict),
    reachable db ->
    delete_subscription subscription_id db = (Return response, db') ->
    exists (before after : list Subscription.t) (stored : Subscription.t),
      Subscription.id stored = subscription_id /\
      subscriptions db = before ++ stored :: after /\
      subscriptions db' = before ++ after.
Proof.
  intros db db' subscription_id response Hreach Hdel.
  destruct (delete_subscription_returned db db' subscription_id response Hdel)
    as [_ [stored [Hsub Hdb]]].
  destruct (reachable_sound db Hreach) as [[_ [_ [_ Hks]]] _].
  destruct (delete_row_splits (subscriptions db) subscription_id stored Hks Hsub)
    as [before [after [Hl1 Hl2]]].
  exists before, after, stored. split; [apply (first_by_id _ _ _ Hsub)|].
  split; [exact Hl1|]. subst db'. simpl. exact Hl2.
Qed.

(** X14: once delete_subscription has succeeded, no row with that id is
    left: deleting it again and updating it are both answered 404 and change
    nothing. *)
Theorem deleted_subscription_is_gone :
  forall (db db' : Session) (subscription_id : Z) (response : dict),
    delete_subscription subscription_id db = (Return response, db') ->
    (forall s, In s (subscriptions db') -> Subscription.id s <> subscription_id) /\
    delete_subscription subscription_id db' =
      (HTTPException HTTP_404_NOT_FOUND "Subscription not found", db') /\
    (forall subscription : SubscriptionUpdate.t,
       update_subscription subscription_id subscription db' =
         (HTTPException HTTP_404_NOT_FOUND "Subscription not found", db')).
Proof.
  intros db db' subscription_id response Hdel.
  destruct (delete_subscription_returned db db' subscription_id response Hdel)
    as [Hkey [stored [Hsub Hdb]]].
  assert (Hgone :
    first (fun s => Subscription.id s =? subscription_id) (subscriptions db') = None).
  { subst db'. simpl. apply first_delete_row. }
  split; [|split].
  - intros s Hin. apply (first_None _ _ _ Hgone) in Hin. simpl in Hin.
    apply Z.eqb_neq. exact Hin.
  - rewrite (delete_subscription_missing db' subscription_id Hgone), Hkey.
    reflexivity.
  - intros subscription.
    rewrite (update_subscription_not_found db' subscription_id subscription Hgone),
      Hkey.
    reflexivity.
Qed.

(** ** Creating, then looking up *)

Lemma create_subscription_returned :
  forall (db db' : Session) (subscription : SubscriptionCreate.t)
    (created : Subscription.t),
    create_subscription subscription db = (Return created, db') ->
    created = Subscription.mk (next_id (map Subscription.id (subscriptions db)))
                (SubscriptionCreate.user_id subscription)
                (SubscriptionCreate.plan_id subscription)
                (SubscriptionCreate.active subscription) /\
    db' = mkSession (users db) (magazines db) (plans db)
            (subscriptions db ++ [created]).
Proof.
  intros db db' subscription created. unfold create_subscription. run_route.
  destruct (first _ (users db)); simpl;
    [|destruct (storable _); intros H; discriminate H].
  destruct (first _ (plans db)); simpl;
    [|destruct (storable _); intros H; discriminate H].
  destruct (storable _ && storable _); simpl; intros H; [|discriminate H].
  injection H as Hc Hdb. subst created db'. split; reflexivity.
Qed.

(** X15: a subscription that create_subscription returned is stored: the
    lookup by its id finds it, and the owner's subscription list is the
    owner's previous subscriptions followed by it. *)
Theorem created_subscription_is_listed :
  forall (db db' : Session) (subscription : SubscriptionCreate.t)
    (created : Subscription.t),
    create_subscription subscription db = (Return created, db') ->
    first (fun s => Subscription.id s =? Subscription.id created) (subscriptions db')
      = Some created /\
    get_user_subscriptions (SubscriptionCreate.user_id subscription) db' =
      (Return
         (all (fun s => Subscription.user_id s =? SubscriptionCreate.user_id subscription)
            (subscriptions db) ++ [created]), db').
Proof.
  intros db db' subscription created Hrun.
  destruct (create_subscription_returned db db' subscription created Hrun)
    as [Hc Hdb].
  split.
  - rewrite Hdb. simpl. apply first_app_new; [|apply Z.eqb_refl].
    apply first_none_of_all_false. intros s Hin. apply Z.eqb_neq.
    assert (Hlt : Subscription.id s < Subscription.id created).
    { rewrite Hc. simpl. apply next_id_fresh. apply in_map. exact Hin. }
    lia.
  - unfold get_user_subscriptions. run_route. rewrite Hdb. simpl.
    unfold all. rewrite filter_app. simpl.
    assert (Hu : (Subscription.user_id created
                    =? SubscriptionCreate.user_id subscription) = true).
    { rewrite Hc. simpl. apply Z.eqb_refl. }
    rewrite Hu.
    destruct (filter _ (subscriptions db)); reflexivity.
Qed.


End Handlers.

(** ** The handlers on the sample data *)


Lemma sample_db_built :
  serve_all sample_hash sample_verify sample_token sample_requests create_all
  = sample_db.
Proof. reflexivity. Qed.

Lemma sample_db_reachable :
  reachable sample_hash sample_verify sample_token sample_db.
Proof.
  rewrite <- sample_db_built. apply reachable_serve_all. apply reachable_create_all.
Qed.

(* Deleting in [sample_db]: subscription 3 is missing, subscription 2 is
   bob's, subscription 1 is the current user's. *)
Lemma delete_subscription_outcomes_witness :
  delete_subscription 3 sample_db =
    (HTTPException 404 "Subscription not found", sample_db) /\
  delete_subscription 2 sample_db =
    (HTTPException 403 "You do not have permission to delete this subscription",
     sample_db) /\
  exists db' : Session,
    delete_subscription 1 sample_db =
      (Return [("msg", "Subscription deleted successfully")], db') /\
    first (fun s => Subscription.id s =? 1) (subscriptions db') = None.
Proof.
  pose proof (delete_subscription_outcomes sample_hash sample_verify sample_token
                sample_db sample_db_reachable) as H.
  split; [|split].
  - destruct (H 3) as [H404 _]. apply H404; reflexivity.
  - destruct (H 2) as [_ [_ Hfound]].
    destruct (Hfound (Subscription.mk 2 2 1 true) eq_refl)
      as [current_user [Huser [H403 _]]].
    apply H403. injection Huser as Huser. subst current_user. simpl. lia.
  - destruct (H 1) as [_ [_ Hfound]].
    destruct (Hfound (Subscription.mk 1 1 1 true) eq_refl)
      as [current_user [Huser [_ Hdel]]].
    injection Huser as Huser. subst current_user.
    destruct (Hdel eq_refl eq_refl) as [db' [Hdb' [Hgone _]]].
    exists db'. split; assumption.
Defined.

(* No subscription has the id 2^63, which is outside the 64-bit range: the
   lookup cannot bind it and the request is not answered 404. *)
Lemma delete_subscription_out_of_range :
  first (fun s => Subscription.id s =? 2 ^ 63) (subscriptions sample_db) = None /\
  delete_subscription (2 ^ 63) sample_db = (Uncaught OverflowError, sample_db).
Proof. split; reflexivity. Qed.

(* The partial update of the spec's example: plan_id = 1, active = true,
   updated with only active = false. *)
Lemma update_subscription_partial_witness :
  exists (updated : Subscription.t) (db' : Session),
    update_subscription 1 (SubscriptionUpdate.mk None (Some false)) sample_db
      = (Return updated, db') /\
    Subscription.id updated = 1 /\ Subscription.user_id updated = 1 /\
    Subscription.plan_id updated = 1 /\ Subscription.active updated = false.
Proof.
  destruct (update_subscription_partial sample_db 1
              (SubscriptionUpdate.mk None (Some false))
              (Subscription.mk 1 1 1 true) eq_refl)
    as [Hok _].
  destruct (Hok eq_refl)
    as (updated & db' & Hrun & _ & Hid & Huid & _ & _ & _ & _ & _ & _ & _ & _ & Hex).
  exists updated, db'. destruct (Hex eq_refl eq_refl eq_refl) as [Hplan Hactive].
  repeat split; assumption.
Defined.

(* Subscription 1 exists and the request names the plan_id 2^63: the update
   does not return and the field of the request is not changed. *)
Lemma update_subscription_plan_id_out_of_range :
  first (fun s => Subscription.id s =? 1) (subscriptions sample_db)
    = Some (Subscription.mk 1 1 1 true) /\
  update_subscription 1 (SubscriptionUpdate.mk (Some (2 ^ 63)) None) sample_db
    = (Uncaught OverflowError, sample_db).
Proof. split; reflexivity. Qed.

(* Plan 99 does not exist; the update stores it all the same. *)
Lemma update_subscription_plan_unchecked_witness :
  subscription_plans_exist sample_db = true /\
  exists (updated : Subscription.t) (db' : Session),
    update_subscription 1 (SubscriptionUpdate.mk (Some 99) None) sample_db
      = (Return updated, db') /\
    Subscription.plan_id updated = 99 /\
    subscription_plans_exist db' = false.
Proof.
  split; [reflexivity|].
  destruct (update_subscription_plan_unchecked sample_db 1 99 None
              (Subscription.mk 1 1 1 true) eq_refl eq_refl eq_refl)
    as (updated & db' & Hrun & Hplan & _ & Hbroken).
  exists updated, db'. repeat split; try assumption. apply Hbroken. reflexivity.
Defined.

(* The non-null plan_id 2^63 is not stored: subscription 1 keeps plan 1. *)
Lemma update_subscription_unstorable_plan_not_stored :
  fst (update_subscription 1 (SubscriptionUpdate.mk (Some (2 ^ 63)) (Some false))
         sample_db) = Uncaught OverflowError /\
  first (fun s => Subscription.id s =? 1)
    (subscriptions
       (snd (update_subscription 1
               (SubscriptionUpdate.mk (Some (2 ^ 63)) (Some false)) sample_db)))
  = Some (Subscription.mk 1 1 1 true).
Proof. split; reflexivity. Qed.

(* In [sample_db] the current user is alice: bob's subscription is refused. *)
Lemma delete_subscription_only_user_1_witness :
  get_current_user sample_db = (Return (Some alice), sample_db) /\
  delete_subscription 2 sample_db =
    (HTTPException 403 "You do not have permission to delete this subscription",
     sample_db).
Proof.
  assert (Hin : In alice (users sample_db)) by (left; reflexivity).
  destruct (delete_subscription_only_user_1 sample_db 2 alice Hin eq_refl)
    as [_ [_ H403]].
  split; [reflexivity|].
  apply (H403 (Subscription.mk 2 2 1 true) eq_refl). simpl. lia.
Defined.


(* User 7 does not exist; user 2 and plan 1 do, and the body omits active. *)
Lemma create_subscription_outcomes_witness :
  create_subscription (SubscriptionCreate.parse_obj 7 1 None) sample_db =
    (HTTPException 404 "User not found", sample_db) /\
  create_subscription (SubscriptionCreate.parse_obj 2 8 None) sample_db =
    (HTTPException 404 "Plan not found", sample_db) /\
  exists created : Subscription.t,
    create_subscription (SubscriptionCreate.parse_obj 2 1 None) sample_db =
      (Return created,
       mkSession (users sample_db) (magazines sample_db) (plans sample_db)
         (subscriptions sample_db ++ [created])) /\
    Subscription.active created = true.
Proof.
  split; [|split].
  - destruct (create_subscription_outcomes sample_db
                (SubscriptionCreate.parse_obj 7 1 None)) as [H404 _].
    apply (H404 eq_refl).
  - destruct (create_subscription_outcomes sample_db
                (SubscriptionCreate.parse_obj 2 8 None)) as [_ [H404 _]].
    apply (H404 bob eq_refl eq_refl).
  - destruct (create_subscription_outcomes sample_db
                (SubscriptionCreate.parse_obj 2 1 None)) as [_ [_ Hok]].
    destruct (Hok bob (Plan.mk 1 1 "Monthly Subscription" 10 0) eq_refl eq_refl
                eq_refl eq_refl)
      as (created & Hrun & _ & _ & _ & _ & Hdefault).
    exists created. split; [exact Hrun|]. apply (Hdefault 2 1). reflexivity.
Defined.

(* No user has the id 2^63: the request is not answered 404. *)
Lemma create_subscription_out_of_range :
  first (fun u => User.id u =? 2 ^ 63) (users sample_db) = None /\
  create_subscription (SubscriptionCreate.mk (2 ^ 63) 1 true) sample_db
    = (Uncaught OverflowError, sample_db).
Proof. split; reflexivity. Qed.

(* User 2 has one subscription; user 7 has none. *)
Lemma get_user_subscriptions_outcomes_witness :
  get_user_subscriptions 2 sample_db =
    (Return [Subscription.mk 2 2 1 true], sample_db) /\
  get_user_subscriptions 7 sample_db =
    (HTTPException 404 "No subscriptions found for this user", sample_db).
Proof.
  split.
  - destruct (get_user_subscriptions_outcomes sample_hash sample_verify sample_token
                sample_db 2) as [_ [Hsome _]].
    apply Hsome. discriminate.
  - destruct (get_user_subscriptions_outcomes sample_hash sample_verify sample_token
                sample_db 7) as [Hnone _].
    apply (Hnone eq_refl).
Defined.

(* No subscription has the user_id 2^63: the request is not answered 404. *)
Lemma get_user_subscriptions_out_of_range :
  all (fun s => Subscription.user_id s =? 2 ^ 63) (subscriptions sample_db) = [] /\
  get_user_subscriptions (2 ^ 63) sample_db = (Uncaught OverflowError, sample_db).
Proof. split; reflexivity. Qed.






(** ** The further properties on the sample data *)


Lemma reset_password_then_login_witness :
  login sample_verify sample_token (UserLogin.mk "bob" "hammer")
    (snd (reset_password sample_hash (PasswordReset.mk "bob" "hammer") sample_db))
  = (Return [("access_token", "token.bob"); ("token_type", "bearer")],
     snd (reset_password sample_hash (PasswordReset.mk "bob" "hammer") sample_db)).
Proof.
  exact (reset_password_then_login sample_hash sample_verify sample_token sample_db
           (PasswordReset.mk "bob" "hammer") bob eq_refl eq_refl).
Defined.

Lemma register_then_login_witness :
  login sample_verify sample_token (UserLogin.mk "carol" "pw")
    (snd (register sample_hash (UserCreate.mk "carol" "carol@example.com" "pw")
            sample_db))
  = (Return [("access_token", "token.carol"); ("token_type", "bearer")],
     snd (register sample_hash (UserCreate.mk "carol" "carol@example.com" "pw")
            sample_db)).
Proof.
  exact (register_then_login sample_hash sample_verify sample_token sample_db
           (snd (register sample_hash
                   (UserCreate.mk "carol" "carol@example.com" "pw") sample_db))
           (UserCreate.mk "carol" "carol@example.com" "pw")
           [("username", "carol"); ("email", "carol@example.com")]
           eq_refl eq_refl).
Defined.

(* A registration refused by the unique index and a delete refused with 403
   leave [sample_db] as it is. *)
Lemma failed_request_changes_nothing_witness :
  serve sample_hash sample_verify sample_token
    (Register (UserCreate.mk "dave" "alice@example.com" "pw")) sample_db = sample_db /\
  serve sample_hash sample_verify sample_token (DeleteSubscription 2) sample_db
    = sample_db.
Proof.
  split;
    apply (failed_request_changes_nothing sample_hash sample_verify sample_token);
    simpl; discriminate.
Defined.

Lemma reachable_keys_unique_witness : keys_unique sample_db.
Proof.
  exact (reachable_keys_unique sample_hash sample_verify sample_token sample_db
           sample_db_reachable).
Defined.

Lemma reachable_names_unique_witness : names_unique sample_db.
Proof.
  exact (reachable_names_unique sample_hash sample_verify sample_token sample_db
           sample_db_reachable).
Defined.

Lemma reachable_references_exist_witness :
  plan_magazines_exist sample_db /\ subscription_users_exist sample_db.
Proof.
  exact (reachable_references_exist sample_hash sample_verify sample_token sample_db
           sample_db_reachable).
Defined.


Lemma delete_subscription_removes_one_row_witness :
  exists (before after : list Subscription.t) (stored : Subscription.t),
    Subscription.id stored = 1 /\
    subscriptions sample_db = before ++ stored :: after /\
    subscriptions (snd (delete_subscription 1 sample_db)) = before ++ after.
Proof.
  exact (delete_subscription_removes_one_row sample_hash sample_verify sample_token
           sample_db (snd (delete_subscription 1 sample_db)) 1
           [("msg", "Subscription deleted successfully")]
           sample_db_reachable eq_refl).
Defined.

Lemma deleted_subscription_is_gone_witness :
  delete_subscription 1 (snd (delete_subscription 1 sample_db)) =
    (HTTPException 404 "Subscription not found",
     snd (delete_subscription 1 sample_db)).
Proof.
  destruct (deleted_subscription_is_gone sample_db
              (snd (delete_subscription 1 sample_db)) 1
              [("msg", "Subscription deleted successfully")] eq_refl)
    as [_ [Hagain _]].
  exact Hagain.
Defined.

Lemma created_subscription_is_listed_witness :
  get_user_subscriptions 2
    (snd (create_subscription (SubscriptionCreate.parse_obj 2 1 None) sample_db))
  = (Return [Subscription.mk 2 2 1 true; Subscription.mk 3 2 1 true],
     snd (create_subscription (SubscriptionCreate.parse_obj 2 1 None) sample_db)).
Proof.
  destruct (created_subscription_is_listed sample_db
              (snd (create_subscription (SubscriptionCreate.parse_obj 2 1 None)
                      sample_db))
              (SubscriptionCreate.parse_obj 2 1 None)
              (Subscription.mk 3 2 1 true) eq_refl)
    as [_ Hlist].
  exact Hlist.
Defined.


(* Subscription 3 does not exist in [sample_db]. *)
Lemma update_subscription_missing_witness :
  update_subscription 3 (SubscriptionUpdate.mk (Some 1) None) sample_db =
    (HTTPException 404 "Subscription not found", sample_db).
Proof.
  destruct (update_subscription_missing sample_db 3
              (SubscriptionUpdate.mk (Some 1) None)) as [H404 _].
  apply (H404 eq_refl).
Defined.
